(** * The call envelope of bittensor/protocol.py

    A shallow embedding of [cast_int], [cast_float], the two pydantic models
    [TerminalInfo] and [Synapse], and the header codec
    [Synapse.to_headers] / [Synapse.from_headers].

    Python exceptions are values of an error type, dictionaries are
    insertion-ordered association lists, integers are [Z].  The models are
    pydantic (v1) [BaseModel]s with [validate_assignment = True]; the part of
    pydantic that the two classes exercise (field validation with
    [pre] validators, the [pre] root validator, validated assignment) is
    written out next to the class it belongs to.

    Text is a Rocq [string]; a character stands for the code point of the
    same number, so every statement is about text over code points below
    256. *)

From Stdlib Require Import String Ascii List ZArith Lia Bool.
From Stdlib Require Import DecimalString DecimalZ DecimalPos DecimalN.
Import ListNotations.
Open Scope string_scope.
Open Scope Z_scope.

Set Implicit Arguments.

(** ** Exceptions and results *)

(** The exceptions the modelled code can raise.  [ValidationError] is
    pydantic's; it carries the locations (field names) of the failed
    fields.  In pydantic v1 it is a subclass of [ValueError]. *)
Inductive exn : Type :=
| TypeError
| ValueError
| IndexError
| AttributeError
| OverflowError
| ValidationError (locs : list string).

Inductive result (A : Type) : Type :=
| Ok (a : A)
| Raise (e : exn).

Arguments Ok {A} a.
Arguments Raise {A} e.

Definition bind {A B : Type} (r : result A) (k : A -> result B) : result B :=
  match r with
  | Ok a => k a
  | Raise e => Raise e
  end.

Notation "x <- r ;; k" := (bind r (fun x => k))
  (at level 61, r at next level, right associativity).
Notation "' p <- r ;; k" := (bind r (fun p => k))
  (at level 61, p pattern, r at next level, right associativity).

(** [except (ValueError, TypeError, AssertionError)]: what pydantic turns
    into a field error.  Anything else propagates unchanged. *)
Definition is_validation_failure (e : exn) : bool :=
  match e with
  | ValueError | TypeError | ValidationError _ => true
  | IndexError | AttributeError | OverflowError => false
  end.

(** ** Dictionaries

    A Python [dict] keeps insertion order; [d[k] = v] overwrites in place
    when [k] is present and appends otherwise. *)
Definition dict (V : Type) : Type := list (string * V).

Fixpoint dict_get {V : Type} (d : dict V) (k : string) : option V :=
  match d with
  | [] => None
  | (k', v) :: d' => if String.eqb k' k then Some v else dict_get d' k
  end.

Fixpoint dict_set {V : Type} (d : dict V) (k : string) (v : V) : dict V :=
  match d with
  | [] => [(k, v)]
  | (k', v') :: d' =>
      if String.eqb k' k then (k', v) :: d' else (k', v') :: dict_set d' k v
  end.

(** [d.update(e)] *)
Definition dict_update {V : Type} (d e : dict V) : dict V :=
  fold_left (fun acc kv => dict_set acc (fst kv) (snd kv)) e d.

(** [{ ... for k, v in items }]: a dictionary built entry by entry. *)
Definition dict_of_items {V : Type} (items : list (string * V)) : dict V :=
  dict_update [] items.

Definition dict_keys {V : Type} (d : dict V) : list string := map fst d.

(** ** Strings *)

Fixpoint starts_with (p s : string) : bool :=
  match p, s with
  | EmptyString, _ => true
  | String a p', String b s' => Ascii.eqb a b && starts_with p' s'
  | String _ _, EmptyString => false
  end.

(** [s.split(sep)] for a non-empty [sep]: the pieces between the
    non-overlapping occurrences of [sep], scanned from the left.  [skip]
    counts the characters of a matched separator still to be dropped and
    [cur] is the piece being read. *)
Fixpoint split_go (sep : string) (skip : nat) (cur : string) (s : string)
  : list string :=
  match s with
  | EmptyString => [cur]
  | String c s' =>
      match skip with
      | S n => split_go sep n cur s'
      | O =>
          if starts_with sep s
          then cur :: split_go sep (Nat.pred (String.length sep)) "" s'
          else split_go sep O (cur ++ String c "") s'
      end
  end.

Definition split (sep s : string) : list string := split_go sep O "" s.

(** [l[1]], raising [IndexError] out of range. *)
Definition index1 {A : Type} (l : list A) : result A :=
  match nth_error l 1 with
  | Some x => Ok x
  | None => Raise IndexError
  end.

(** ** [int(str)] and [str(int)] *)

(** The white space [int] skips around a literal (code points below
    256): U+0009 to U+000D and U+0020, and in a text that is not ASCII
    also U+0085 and U+00A0.  U+001C to U+001F are white space for
    [str.isspace] but not for [int]. *)
Definition is_space (c : ascii) : bool :=
  let n := nat_of_ascii c in
  ((9 <=? n) && (n <=? 13) || (n =? 32) || (n =? 133) || (n =? 160))%nat.

Definition digit_of (c : ascii) : option Z :=
  let n := nat_of_ascii c in
  if ((48 <=? n) && (n <=? 57))%nat then Some (Z.of_nat n - 48) else None.

Fixpoint lstrip (s : string) : string :=
  match s with
  | EmptyString => EmptyString
  | String c s' => if is_space c then lstrip s' else s
  end.

Fixpoint all_space (s : string) : bool :=
  match s with
  | EmptyString => true
  | String c s' => is_space c && all_space s'
  end.

(** Where the scan of a decimal literal stands: a digit is required at the
    start and after an underscore; after a digit the literal may go on,
    take one underscore, or end (followed by white space only). *)
Inductive lit_state : Type := NeedDigit | AfterDigit.

Fixpoint int_digits (st : lit_state) (acc : Z) (s : string) : option Z :=
  match s with
  | EmptyString =>
      match st with AfterDigit => Some acc | NeedDigit => None end
  | String c s' =>
      match digit_of c with
      | Some d => int_digits AfterDigit (10 * acc + d) s'
      | None =>
          match st with
          | NeedDigit => None
          | AfterDigit =>
              if Ascii.eqb c "_" then int_digits NeedDigit acc s'
              else if all_space s then Some acc else None
          end
      end
  end.

(** [int(s)] for a [str] in base 10: optional white space, an optional
    sign, digits with single underscores between them, optional white
    space.  [None] is [ValueError]. *)
Definition int_of_str (s : string) : option Z :=
  match lstrip s with
  | EmptyString => None
  | String c s' =>
      if Ascii.eqb c "-" then option_map Z.opp (int_digits NeedDigit 0 s')
      else if Ascii.eqb c "+" then int_digits NeedDigit 0 s'
      else int_digits NeedDigit 0 (String c s')
  end.

(** [str(n)] for an [int]. *)
Definition str_of_int (z : Z) : string := NilZero.string_of_int (Z.to_int z).

(** ** Floats

    A Python [float] is a binary64; its conversions from and to text are
    those of the interpreter and are taken as an interface.  All NaNs are
    one value of [pyfloat]. *)
Class PyFloat : Type := {
  pyfloat : Type;
  (** [float(s)] for a [str]; [None] is [ValueError] *)
  float_of_str : string -> option pyfloat;
  (** [str(x)] *)
  str_of_float : pyfloat -> string;
  (** [float(n)] for an [int]; [None] is [OverflowError] *)
  float_of_int : Z -> option pyfloat;
  (** [int(x)]: truncation; [ValueError] on NaN, [OverflowError] on an
      infinity *)
  int_of_float : pyfloat -> result Z;
  (** the literal [12.0] *)
  float_12 : pyfloat
}.


Section Protocol.

Context {PF : PyFloat}.

(** ** Values

    The scalar values that reach a [TerminalInfo] field: [None], a [str],
    an [int], a [float]. *)
Inductive scalar : Type :=
| VNone
| VStr (s : string)
| VInt (z : Z)
| VFloat (f : pyfloat).

(** [v != None] *)
Definition not_none (v : scalar) : bool :=
  match v with VNone => false | _ => true end.

(** [int(v)] *)
Definition py_int (v : scalar) : result Z :=
  match v with
  | VNone => Raise TypeError
  | VStr s => match int_of_str s with Some z => Ok z | None => Raise ValueError end
  | VInt z => Ok z
  | VFloat f => int_of_float f
  end.

(** [float(v)] *)
Definition py_float (v : scalar) : result pyfloat :=
  match v with
  | VNone => Raise TypeError
  | VStr s => match float_of_str s with Some f => Ok f | None => Raise ValueError end
  | VInt z => match float_of_int z with Some f => Ok f | None => Raise OverflowError end
  | VFloat f => Ok f
  end.

(** [str(v)] *)
Definition py_str (v : scalar) : string :=
  match v with
  | VNone => "None"
  | VStr s => s
  | VInt z => str_of_int z
  | VFloat f => str_of_float f
  end.

(** ** FieldCoercion *)

Definition cast_int (raw : scalar) : result scalar :=
  if not_none raw then z <- py_int raw ;; Ok (VInt z) else Ok raw.

Definition cast_float (raw : scalar) : result scalar :=
  if not_none raw then f <- py_float raw ;; Ok (VFloat f) else Ok raw.

(** ** pydantic field validation

    The type validators of [Optional[int]], [Optional[str]] and
    [Optional[float]]: [None] is kept, a value of the type is kept, another
    scalar is coerced; a failed coercion is pydantic's [IntegerError] /
    [FloatError], both [TypeError]s. *)
Definition int_validator (v : scalar) : result (option Z) :=
  match v with
  | VNone => Ok None
  | VInt z => Ok (Some z)
  | _ => match py_int v with Ok z => Ok (Some z) | Raise _ => Raise TypeError end
  end.

Definition str_validator (v : scalar) : result (option string) :=
  match v with
  | VNone => Ok None
  | _ => Ok (Some (py_str v))
  end.

Definition float_validator (v : scalar) : result (option pyfloat) :=
  match v with
  | VNone => Ok None
  | VFloat f => Ok (Some f)
  | _ => match py_float v with
         | Ok f => Ok (Some f)
         | Raise OverflowError => Raise OverflowError
         | Raise _ => Raise TypeError
         end
  end.

(** A field with a [pre=True] validator: the validator runs first, on
    [None] too, and the type validator runs on what it returns. *)
Definition with_pre {A : Type} (pre : scalar -> result scalar)
    (ty : scalar -> result A) (v : scalar) : result A :=
  v' <- pre v ;; ty v'.

(** ** TerminalInfo *)

Record TerminalInfo : Type := {
  status_code : option Z;
  status_message : option string;
  process_time : option pyfloat;
  ip : option string;
  port : option Z;
  version : option Z;
  nonce : option Z;
  uuid : option string;
  hotkey : option string;
  signature : option string
}.

(** The validators of the fields, as the class declares them:
    [status_code], [port], [version] and [nonce] run [cast_int] first,
    [process_time] runs [cast_float] first, the [str] fields have no
    validator of their own. *)
Definition validate_status_code := with_pre cast_int int_validator.
Definition validate_status_message := str_validator.
Definition validate_process_time := with_pre cast_float float_validator.
Definition validate_ip := str_validator.
Definition validate_port := with_pre cast_int int_validator.
Definition validate_version := with_pre cast_int int_validator.
Definition validate_nonce := with_pre cast_int int_validator.
Definition validate_uuid := str_validator.
Definition validate_hotkey := str_validator.
Definition validate_signature := str_validator.

Definition set_status_code (x : option Z) (t : TerminalInfo) : TerminalInfo :=
  {| status_code := x; status_message := status_message t;
     process_time := process_time t; ip := ip t; port := port t;
     version := version t; nonce := nonce t; uuid := uuid t;
     hotkey := hotkey t; signature := signature t |}.
Definition set_status_message (x : option string) (t : TerminalInfo) : TerminalInfo :=
  {| status_code := status_code t; status_message := x;
     process_time := process_time t; ip := ip t; port := port t;
     version := version t; nonce := nonce t; uuid := uuid t;
     hotkey := hotkey t; signature := signature t |}.
Definition set_process_time (x : option pyfloat) (t : TerminalInfo) : TerminalInfo :=
  {| status_code := status_code t; status_message := status_message t;
     process_time := x; ip := ip t; port := port t;
     version := version t; nonce := nonce t; uuid := uuid t;
     hotkey := hotkey t; signature := signature t |}.
Definition set_ip (x : option string) (t : TerminalInfo) : TerminalInfo :=
  {| status_code := status_code t; status_message := status_message t;
     process_time := process_time t; ip := x; port := port t;
     version := version t; nonce := nonce t; uuid := uuid t;
     hotkey := hotkey t; signature := signature t |}.
Definition set_port (x : option Z) (t : TerminalInfo) : TerminalInfo :=
  {| status_code := status_code t; status_message := status_message t;
     process_time := process_time t; ip := ip t; port := x;
     version := version t; nonce := nonce t; uuid := uuid t;
     hotkey := hotkey t; signature := signature t |}.
Definition set_version (x : option Z) (t : TerminalInfo) : TerminalInfo :=
  {| status_code := status_code t; status_message := status_message t;
     process_time := process_time t; ip := ip t; port := port t;
     version := x; nonce := nonce t; uuid := uuid t;
     hotkey := hotkey t; signature := signature t |}.
Definition set_nonce (x : option Z) (t : TerminalInfo) : TerminalInfo :=
  {| status_code := status_code t; status_message := status_message t;
     process_time := process_time t; ip := ip t; port := port t;
     version := version t; nonce := x; uuid := uuid t;
     hotkey := hotkey t; signature := signature t |}.
Definition set_uuid (x : option string) (t : TerminalInfo) : TerminalInfo :=
  {| status_code := status_code t; status_message := status_message t;
     process_time := process_time t; ip := ip t; port := port t;
     version := version t; nonce := nonce t; uuid := x;
     hotkey := hotkey t; signature := signature t |}.
Definition set_hotkey (x : option string) (t : TerminalInfo) : TerminalInfo :=
  {| status_code := status_code t; status_message := status_message t;
     process_time := process_time t; ip := ip t; port := port t;
     version := version t; nonce := nonce t; uuid := uuid t;
     hotkey := x; signature := signature t |}.
Definition set_signature (x : option string) (t : TerminalInfo) : TerminalInfo :=
  {| status_code := status_code t; status_message := status_message t;
     process_time := process_time t; ip := ip t; port := port t;
     version := version t; nonce := nonce t; uuid := uuid t;
     hotkey := hotkey t; signature := x |}.

(** Every field has [default = None]. *)
Definition TerminalInfo_default : TerminalInfo :=
  {| status_code := None; status_message := None; process_time := None;
     ip := None; port := None; version := None; nonce := None;
     uuid := None; hotkey := None; signature := None |}.

Definition opt_val {A : Type} (inj : A -> scalar) (o : option A) : scalar :=
  match o with Some a => inj a | None => VNone end.

(** [self.dict()]: every field, in declaration order, unset ones as
    [None]. *)
Definition TerminalInfo_dict (t : TerminalInfo) : dict scalar :=
  [ ("status_code", opt_val VInt (status_code t));
    ("status_message", opt_val VStr (status_message t));
    ("process_time", opt_val VFloat (process_time t));
    ("ip", opt_val VStr (ip t));
    ("port", opt_val VInt (port t));
    ("version", opt_val VInt (version t));
    ("nonce", opt_val VInt (nonce t));
    ("uuid", opt_val VStr (uuid t));
    ("hotkey", opt_val VStr (hotkey t));
    ("signature", opt_val VStr (signature t)) ].

(** Validation of one field at construction: a keyword that is absent
    leaves the default, a failed validation is recorded under the field's
    name and validation goes on with the next field. *)
Definition init_field {V A : Type} (kwargs : dict V) (k : string)
    (validate : V -> result A) (default : A) (errs : list string)
  : result (A * list string) :=
  match dict_get kwargs k with
  | None => Ok (default, errs)
  | Some v =>
      match validate v with
      | Ok x => Ok (x, errs)
      | Raise e =>
          if is_validation_failure e then Ok (default, (errs ++ [k])%list)
          else Raise e
      end
  end.

(** [TerminalInfo(...)] called with the keyword arguments [kwargs];
    keywords that name no field are ignored. *)
Definition TerminalInfo_init (kwargs : dict scalar) : result TerminalInfo :=
  '(f1, e) <- init_field kwargs "status_code" validate_status_code None [] ;;
  '(f2, e) <- init_field kwargs "status_message" validate_status_message None e ;;
  '(f3, e) <- init_field kwargs "process_time" validate_process_time None e ;;
  '(f4, e) <- init_field kwargs "ip" validate_ip None e ;;
  '(f5, e) <- init_field kwargs "port" validate_port None e ;;
  '(f6, e) <- init_field kwargs "version" validate_version None e ;;
  '(f7, e) <- init_field kwargs "nonce" validate_nonce None e ;;
  '(f8, e) <- init_field kwargs "uuid" validate_uuid None e ;;
  '(f9, e) <- init_field kwargs "hotkey" validate_hotkey None e ;;
  '(f10, e) <- init_field kwargs "signature" validate_signature None e ;;
  match e with
  | [] => Ok {| status_code := f1; status_message := f2; process_time := f3;
                ip := f4; port := f5; version := f6; nonce := f7;
                uuid := f8; hotkey := f9; signature := f10 |}
  | _ => Raise (ValidationError e)
  end.

(** Validation of an assigned value ([validate_assignment = True]): a
    failure is a [ValidationError] naming the field. *)
Definition assign {A : Type} (k : string) (r : result A) : result A :=
  match r with
  | Ok x => Ok x
  | Raise e =>
      if is_validation_failure e then Raise (ValidationError [k]) else Raise e
  end.

(** [setattr(t, k, v)] on a [TerminalInfo]: a name that is no field is a
    [ValueError]; otherwise the value is validated and, when valid,
    stored. *)
Definition TerminalInfo_setattr (t : TerminalInfo) (k : string) (v : scalar)
  : result TerminalInfo :=
  if String.eqb k "status_code" then
    x <- assign k (validate_status_code v) ;; Ok (set_status_code x t)
  else if String.eqb k "status_message" then
    x <- assign k (validate_status_message v) ;; Ok (set_status_message x t)
  else if String.eqb k "process_time" then
    x <- assign k (validate_process_time v) ;; Ok (set_process_time x t)
  else if String.eqb k "ip" then
    x <- assign k (validate_ip v) ;; Ok (set_ip x t)
  else if String.eqb k "port" then
    x <- assign k (validate_port v) ;; Ok (set_port x t)
  else if String.eqb k "version" then
    x <- assign k (validate_version v) ;; Ok (set_version x t)
  else if String.eqb k "nonce" then
    x <- assign k (validate_nonce v) ;; Ok (set_nonce x t)
  else if String.eqb k "uuid" then
    x <- assign k (validate_uuid v) ;; Ok (set_uuid x t)
  else if String.eqb k "hotkey" then
    x <- assign k (validate_hotkey v) ;; Ok (set_hotkey x t)
  else if String.eqb k "signature" then
    x <- assign k (validate_signature v) ;; Ok (set_signature x t)
  else Raise ValueError.

(** ** Synapse *)

(** What can be passed for a field of a [Synapse]: a scalar, a [dict] (for
    a nested model), or a [TerminalInfo] instance. *)
Inductive pyval : Type :=
| Scalar (v : scalar)
| VDict (d : dict scalar)
| VTerminalInfo (t : TerminalInfo).

(** [class_name] is [type(self).__name__]: ["Synapse"] for the base class,
    the name of the call type for a subclass.  The payload fields a
    subclass adds are not part of the envelope and are not modelled. *)
Record Synapse : Type := {
  class_name : string;
  name : option string;
  timeout : option pyfloat;
  dendrite : option TerminalInfo;
  axon : option TerminalInfo
}.

Definition with_name (x : option string) (s : Synapse) : Synapse :=
  {| class_name := class_name s; name := x; timeout := timeout s;
     dendrite := dendrite s; axon := axon s |}.
Definition with_timeout (x : option pyfloat) (s : Synapse) : Synapse :=
  {| class_name := class_name s; name := name s; timeout := x;
     dendrite := dendrite s; axon := axon s |}.
Definition with_dendrite (x : option TerminalInfo) (s : Synapse) : Synapse :=
  {| class_name := class_name s; name := name s; timeout := timeout s;
     dendrite := x; axon := axon s |}.
Definition with_axon (x : option TerminalInfo) (s : Synapse) : Synapse :=
  {| class_name := class_name s; name := name s; timeout := timeout s;
     dendrite := dendrite s; axon := x |}.

(** The [pre] root validator: [values['name'] = cls.__name__]. *)
Definition set_name_type (cls : string) (values : dict pyval) : dict pyval :=
  dict_set values "name" (Scalar (VStr cls)).

(** The type validators of the four fields.  [name] is [Optional[str]],
    [timeout] is [Optional[float]] (it has no [cast_float] validator),
    [dendrite] and [axon] are [Optional[TerminalInfo]]: an instance is
    taken (copied), a [dict] is passed to the constructor. *)
Definition validate_name (v : pyval) : result (option string) :=
  match v with
  | Scalar x => str_validator x
  | _ => Raise TypeError
  end.

Definition validate_timeout (v : pyval) : result (option pyfloat) :=
  match v with
  | Scalar x => float_validator x
  | _ => Raise TypeError
  end.

Definition validate_terminal (v : pyval) : result (option TerminalInfo) :=
  match v with
  | Scalar VNone => Ok None
  | Scalar _ => Raise TypeError
  | VDict d => t <- TerminalInfo_init d ;; Ok (Some t)
  | VTerminalInfo t => Ok (Some t)
  end.

(** [cls(...)] called with the keyword arguments [kwargs], for [cls] the
    class [Synapse] or a subclass named [cls]: the root validator runs on
    the keywords first, then the fields are validated in declaration
    order.  Defaults: [name = None], [timeout = 12.0], and a fresh copy of
    [TerminalInfo()] for [dendrite] and for [axon]. *)
Definition Synapse_init (cls : string) (kwargs : dict pyval) : result Synapse :=
  let values := set_name_type cls kwargs in
  '(n, e) <- init_field values "name" validate_name None [] ;;
  '(t, e) <- init_field values "timeout" validate_timeout (Some float_12) e ;;
  '(d, e) <- init_field values "dendrite" validate_terminal
               (Some TerminalInfo_default) e ;;
  '(a, e) <- init_field values "axon" validate_terminal
               (Some TerminalInfo_default) e ;;
  match e with
  | [] => Ok {| class_name := cls; name := n; timeout := t;
                dendrite := d; axon := a |}
  | _ => Raise (ValidationError e)
  end.

Definition opt_terminal (o : option TerminalInfo) : pyval :=
  match o with Some t => VTerminalInfo t | None => Scalar VNone end.

Definition opt_terminal_dict (o : option TerminalInfo) : pyval :=
  match o with Some t => VDict (TerminalInfo_dict t) | None => Scalar VNone end.

(** [self.__dict__]: the fields with the nested models as objects. *)
Definition Synapse___dict__ (self : Synapse) : dict pyval :=
  [ ("name", Scalar (opt_val VStr (name self)));
    ("timeout", Scalar (opt_val VFloat (timeout self)));
    ("dendrite", opt_terminal (dendrite self));
    ("axon", opt_terminal (axon self)) ].

(** [self.dict()]: the fields with the nested models as dictionaries. *)
Definition Synapse_dict (self : Synapse) : dict pyval :=
  [ ("name", Scalar (opt_val VStr (name self)));
    ("timeout", Scalar (opt_val VFloat (timeout self)));
    ("dendrite", opt_terminal_dict (dendrite self));
    ("axon", opt_terminal_dict (axon self)) ].

(** The [str] stored under [k] in a dictionary of field values. *)
Definition str_slot (values : dict pyval) (k : string) : option string :=
  match dict_get values k with
  | Some (Scalar (VStr s)) => Some s
  | _ => None
  end.

Definition Synapse_fields : list string :=
  ["name"; "timeout"; "dendrite"; "axon"].

(** [setattr(self, k, value)] on a [Synapse] ([validate_assignment]): a
    name that is no field is a [ValueError]; otherwise the root validator
    runs on [{**self.__dict__, k: value}], the value is validated as the
    field [k], stored over what the root validator left under [k], and the
    resulting dictionary becomes the object's [__dict__]. *)
Definition Synapse_setattr (self : Synapse) (k : string) (value : pyval)
  : result Synapse :=
  if negb (existsb (String.eqb k) Synapse_fields) then Raise ValueError else
  let new_values :=
    set_name_type (class_name self) (dict_set (Synapse___dict__ self) k value) in
  let self' := with_name (str_slot new_values "name") self in
  if String.eqb k "name" then
    x <- assign k (validate_name value) ;; Ok (with_name x self')
  else if String.eqb k "timeout" then
    x <- assign k (validate_timeout value) ;; Ok (with_timeout x self')
  else if String.eqb k "dendrite" then
    x <- assign k (validate_terminal value) ;; Ok (with_dendrite x self')
  else
    x <- assign k (validate_terminal value) ;; Ok (with_axon x self').

(** Reading [.dict()] of an attribute that may be [None]. *)
Definition terminal_dict_of (o : option TerminalInfo) : result (dict scalar) :=
  match o with
  | Some t => Ok (TerminalInfo_dict t)
  | None => Raise AttributeError
  end.

(** [{ str(prefix+k): str(v) for k, v in d.items() if v != None }] *)
Definition prefixed_items (prefix : string) (d : dict scalar) : dict scalar :=
  dict_of_items
    (map (fun kv => (prefix ++ fst kv, VStr (py_str (snd kv))))
         (filter (fun kv => not_none (snd kv)) d)).

(** [Synapse.to_headers] *)
Definition to_headers (self : Synapse) : result (dict scalar) :=
  base_class <- Synapse_init "Synapse" (Synapse_dict self) ;;
  let headers :=
    [ ("name", opt_val VStr (name base_class));
      ("timeout", VStr (py_str (opt_val VFloat (timeout base_class)))) ] in
  a <- terminal_dict_of (axon base_class) ;;
  let headers := dict_update headers (prefixed_items "axon_" a) in
  d <- terminal_dict_of (dendrite base_class) ;;
  let headers := dict_update headers (prefixed_items "dendrite_" d) in
  Ok headers.

(** [headers.get(k, None)] *)
Definition get_or_none (headers : dict scalar) (k : string) : scalar :=
  match dict_get headers k with Some v => v | None => VNone end.

(** [setattr(synapse.axon, k, v)] and [setattr(synapse.dendrite, k, v)]:
    the nested object is updated in place. *)
Definition setattr_axon (synapse : Synapse) (k : string) (v : scalar)
  : result Synapse :=
  match axon synapse with
  | None => Raise AttributeError
  | Some t => t' <- TerminalInfo_setattr t k v ;; Ok (with_axon (Some t') synapse)
  end.

Definition setattr_dendrite (synapse : Synapse) (k : string) (v : scalar)
  : result Synapse :=
  match dendrite synapse with
  | None => Raise AttributeError
  | Some t => t' <- TerminalInfo_setattr t k v ;; Ok (with_dendrite (Some t') synapse)
  end.

(** One [try: ... except: pass] block of the loop.  [k] is rebound as soon
    as [k.split(prefix)[1]] has a value, whether or not the assignment
    that follows succeeds; any exception leaves the object as it was. *)
Definition try_axon (k : string) (v : scalar) (synapse : Synapse)
  : string * Synapse :=
  match index1 (split "axon_" k) with
  | Raise _ => (k, synapse)
  | Ok k' =>
      match setattr_axon synapse k' v with
      | Ok synapse' => (k', synapse')
      | Raise _ => (k', synapse)
      end
  end.

Definition try_dendrite (k : string) (v : scalar) (synapse : Synapse)
  : string * Synapse :=
  match index1 (split "dendrite_" k) with
  | Raise _ => (k, synapse)
  | Ok k' =>
      match setattr_dendrite synapse k' v with
      | Ok synapse' => (k', synapse')
      | Raise _ => (k', synapse)
      end
  end.

(** The body of [for k, v in headers.items()]. *)
Definition from_headers_step (synapse : Synapse) (kv : string * scalar)
  : Synapse :=
  let '(k, synapse) := try_axon (fst kv) (snd kv) synapse in
  let '(k, synapse) := try_dendrite k (snd kv) synapse in
  synapse.

(** [Synapse.from_headers] *)
Definition from_headers (headers : dict scalar) : result Synapse :=
  synapse <- Synapse_init "Synapse" [] ;;
  f <- py_float (get_or_none headers "timeout") ;;
  synapse <- Synapse_setattr synapse "timeout" (Scalar (VFloat f)) ;;
  synapse <- Synapse_setattr synapse "name" (Scalar (get_or_none headers "name")) ;;
  Ok (fold_left from_headers_step headers synapse).

End Protocol.

(** ** An instance of the float interface

    The floats of integral value, each written the way [str] writes it,
    [<digits>.0]; [float] reads exactly these texts and rejects every
    other one.  The instance is what the codec is run on in the closed
    examples below; on the texts used there (["12.0"], ["not-a-number"])
    it answers as the interpreter does. *)
Definition integral_of_str (s : string) : option Z :=
  match split "." s with
  | [a; "0"] =>
      match int_of_str a with
      | Some z => if String.eqb (str_of_int z) a then Some z else None
      | None => None
      end
  | _ => None
  end.

Definition IntegralFloat : PyFloat :=
  {| pyfloat := Z;
     float_of_str := integral_of_str;
     str_of_float := fun z => str_of_int z ++ ".0";
     float_of_int := fun z => Some z;
     int_of_float := fun z => Ok z;
     float_12 := 12 |}.

(** ** Example data

    An instance of a call type [class Forward(Synapse)], as [Forward()]
    builds it and its caller fills it in. *)
Definition forward_dendrite : @TerminalInfo IntegralFloat :=
  {| status_code := None; status_message := None; process_time := Some (3 : @pyfloat IntegralFloat);
     ip := Some "10.0.0.1"; port := Some 8091; version := Some 600;
     nonce := Some 111111; uuid := None; hotkey := Some "5Enj...";
     signature := None |}.

Definition forward_call : @Synapse IntegralFloat :=
  {| class_name := "Forward"; name := Some "Forward";
     timeout := Some (12 : @pyfloat IntegralFloat);
     dendrite := Some forward_dendrite;
     axon := Some (@TerminalInfo_default IntegralFloat) |}.

Definition forward_headers : dict (@scalar IntegralFloat) :=
  [ ("name", VStr "Synapse"); ("timeout", VStr "12.0");
    ("dendrite_process_time", VStr "3.0"); ("dendrite_ip", VStr "10.0.0.1");
    ("dendrite_port", VStr "8091"); ("dendrite_version", VStr "600");
    ("dendrite_nonce", VStr "111111"); ("dendrite_hotkey", VStr "5Enj...") ].

(** ** Auxiliary definitions for the proofs *)

(** The value of a digit sequence read after the value [acc]. *)
Fixpoint uint_val (d : Decimal.uint) (acc : Z) : Z :=
  match d with
  | Decimal.Nil => acc
  | Decimal.D0 l => uint_val l (10 * acc + 0)
  | Decimal.D1 l => uint_val l (10 * acc + 1)
  | Decimal.D2 l => uint_val l (10 * acc + 2)
  | Decimal.D3 l => uint_val l (10 * acc + 3)
  | Decimal.D4 l => uint_val l (10 * acc + 4)
  | Decimal.D5 l => uint_val l (10 * acc + 5)
  | Decimal.D6 l => uint_val l (10 * acc + 6)
  | Decimal.D7 l => uint_val l (10 * acc + 7)
  | Decimal.D8 l => uint_val l (10 * acc + 8)
  | Decimal.D9 l => uint_val l (10 * acc + 9)
  end.

(** A decidable check that the strings of a list are pairwise distinct,
    and that two lists of strings share none. *)
Fixpoint distinct (l : list string) : bool :=
  match l with
  | [] => true
  | k :: l' => negb (existsb (String.eqb k) l') && distinct l'
  end.

Definition disjoint (l l' : list string) : bool :=
  forallb (fun k => negb (existsb (String.eqb k) l')) l.


Fixpoint no_dot (s : string) : bool :=
  match s with
  | EmptyString => true
  | String c s' => negb (Ascii.eqb c ".") && no_dot s'
  end.

Section Auxiliary.

Context {PF : PyFloat}.

(** The entries [to_headers] writes for one terminal, in order. *)
Definition header_items (prefix : string) (t : TerminalInfo) : dict scalar :=
  map (fun kv => (prefix ++ fst kv, VStr (py_str (snd kv))))
      (filter (fun kv => not_none (snd kv)) (TerminalInfo_dict t)).

(** The header map of a synapse with timeout [t], axon [a] and dendrite
    [d]. *)
Definition header_map (t : option pyfloat) (a d : TerminalInfo) : dict scalar :=
  ([ ("name", VStr "Synapse");
     ("timeout", VStr (py_str (opt_val VFloat t))) ]
   ++ header_items "axon_" a ++ header_items "dendrite_" d)%list.

(** [o] written over [cur]: an unset [o] leaves [cur]. *)
Definition overlay {A : Type} (o cur : option A) : option A :=
  match o with Some x => Some x | None => cur end.

(** The set fields of [t] written over [t0]. *)
Definition overlay_terminal (t t0 : TerminalInfo) : TerminalInfo :=
  {| status_code := overlay (status_code t) (status_code t0);
     status_message := overlay (status_message t) (status_message t0);
     process_time := overlay (process_time t) (process_time t0);
     ip := overlay (ip t) (ip t0);
     port := overlay (port t) (port t0);
     version := overlay (version t) (version t0);
     nonce := overlay (nonce t) (nonce t0);
     uuid := overlay (uuid t) (uuid t0);
     hotkey := overlay (hotkey t) (hotkey t0);
     signature := overlay (signature t) (signature t0) |}.

(** The fields of a terminal that are set, each with the text
    [to_headers] writes for it. *)
Definition text_items (t : TerminalInfo) : dict scalar :=
  map (fun kv => (fst kv, VStr (py_str (snd kv))))
      (filter (fun kv => not_none (snd kv)) (TerminalInfo_dict t)).

(** What [synapse.name = v] stores for a scalar [v]. *)
Definition decoded_name (v : scalar) : option string :=
  match v with VNone => None | _ => Some (py_str v) end.

(** The synapse [from_headers] holds when its loop starts. *)
Definition decoded_start (f : pyfloat) (n : option string) : Synapse :=
  {| class_name := "Synapse"; name := n; timeout := Some f;
     dendrite := Some TerminalInfo_default;
     axon := Some TerminalInfo_default |}.

(** An assignment inside [try: ... except: pass]. *)
Definition set_or_keep (t : TerminalInfo) (kv : string * scalar)
  : TerminalInfo :=
  match TerminalInfo_setattr t (fst kv) (snd kv) with
  | Ok t' => t'
  | Raise _ => t
  end.

Definition TerminalInfo_fields : list string :=
  ["status_code"; "status_message"; "process_time"; "ip"; "port";
   "version"; "nonce"; "uuid"; "hotkey"; "signature"].


(** [Synapse(name="Forward", timeout=12.0,
             axon=TerminalInfo(hotkey="5Enj...", nonce=111111)).to_headers()] *)
Definition concrete_scenario : result (dict scalar) :=
  a <- TerminalInfo_init [("hotkey", VStr "5Enj..."); ("nonce", VInt 111111)] ;;
  s <- Synapse_init "Synapse"
         [ ("name", Scalar (VStr "Forward"));
           ("timeout", Scalar (VFloat float_12));
           ("axon", VTerminalInfo a) ] ;;
  to_headers s.

(** The keys a header map written by [to_headers] can have. *)
Definition wire_keys : list string :=
  (["name"; "timeout"]
   ++ map (fun k => ("axon_" ++ k)%string) TerminalInfo_fields
   ++ map (fun k => ("dendrite_" ++ k)%string) TerminalInfo_fields)%list.

(** What one pass of the decoding loop keeps of a synapse: the class, the
    name, the timeout, and that a terminal that is there stays there. *)
Definition same_envelope (s s' : Synapse) : Prop :=
  class_name s' = class_name s /\ name s' = name s
  /\ timeout s' = timeout s
  /\ (axon s <> None -> axon s' <> None)
  /\ (dendrite s <> None -> dendrite s' <> None).

End Auxiliary.

(** [sep in s]: [sep] occurs somewhere in [s]. *)
Fixpoint contains (sep s : string) : bool :=
  match s with
  | EmptyString => starts_with sep s
  | String _ s' => starts_with sep s || contains sep s'
  end.

(** * Command-line helpers (bin/cli_utils.py)

    The helpers talk to a console and look at the file system.  A console
    is the lines still to be typed and the list of what was shown so far;
    [quit()] and the end of the input are outcomes of their own.  The
    file system, the password policy, the key library and [colored] are
    not part of this code and are taken as they are given. *)
Module cli_utils.

Inductive event : Type :=
| Printed (text : string)          (* [print(text)] *)
| Asked (prompt : string)          (* [input(prompt)] *)
| AskedSecret (prompt : string).   (* [getpass.getpass(prompt)] *)

Record console : Type := {
  answers : list string;
  shown : list event
}.

Inductive outcome (A : Type) : Type :=
| Return (a : A)
| SystemExit          (* [quit()] *)
| EOFError            (* reading past the last line *)
| OutOfFuel.          (* the bound of a modelled loop was reached *)

Arguments Return {A} a.
Arguments SystemExit {A}.
Arguments EOFError {A}.
Arguments OutOfFuel {A}.

Definition io (A : Type) : Type := console -> outcome A * console.

Definition ret {A : Type} (a : A) : io A := fun c => (Return a, c).

Definition io_bind {A B : Type} (m : io A) (k : A -> io B) : io B :=
  fun c =>
    match m c with
    | (Return a, c') => k a c'
    | (SystemExit, c') => (SystemExit, c')
    | (EOFError, c') => (EOFError, c')
    | (OutOfFuel, c') => (OutOfFuel, c')
    end.

Definition show (e : event) (c : console) : console :=
  {| answers := answers c; shown := (shown c ++ [e])%list |}.

Definition print (text : string) : io unit :=
  fun c => (Return tt, show (Printed text) c).

Definition quit {A : Type} : io A := fun c => (SystemExit, c).

Definition read (e : event) : io string :=
  fun c =>
    match answers c with
    | [] => (EOFError, show e c)
    | line :: rest =>
        (Return line, {| answers := rest; shown := (shown c ++ [e])%list |})
    end.

(** [input(prompt)] *)
Definition input (prompt : string) : io string := read (Asked prompt).

(** [getpass.getpass(prompt)] *)
Definition getpass (prompt : string) : io string := read (AskedSecret prompt).

Section Helpers.

(** [termcolor.colored(text, color)] *)
Variable colored : string -> option string -> string.

(** [os.path.expanduser], [os.path.isfile], [os.access(_, os.W_OK)],
    [os.path.dirname] *)
Variable expanduser : string -> string.
Variable isfile : string -> bool.
Variable access_w : string -> bool.
Variable dirname : string -> string.

(** [len(policy.password(p).test())] for the policy
    [PasswordPolicy.from_names(strength=0.66, entropybits=30, length=8)]:
    the number of tests [p] fails. *)
Variable policy_failures : string -> nat.

(** [Keypair.create_from_mnemonic]: a keypair, or the message of the
    [ValueError] it raises. *)
Variable keypair : Type.
Variable create_from_mnemonic : string -> string + keypair.

Definition may_overwrite (file : string) : io bool :=
  io_bind (input ("File " ++ file ++ " already exists. Overwrite ? (y/N) "))
    (fun choice => if String.eqb choice "y" then ret true else ret false).

Definition validate_create_path (keyfile : string) : io string :=
  let keyfile := expanduser keyfile in
  if isfile keyfile then
    if access_w keyfile then
      io_bind (may_overwrite keyfile)
        (fun ok => if ok then ret keyfile else quit)
    else
      io_bind (print (colored ("No write access for  " ++ keyfile) (Some "red")))
        (fun _ => quit)
  else
    let pdir := dirname keyfile in
    if access_w pdir then ret keyfile
    else
      io_bind (print (colored ("No write access for  " ++ keyfile) (Some "red")))
        (fun _ => quit).

Definition validate_password (password : string) : io bool :=
  if String.eqb password "" then ret false
  else if (0 <? policy_failures password)%nat then
    io_bind
      (print (colored
         "Password not strong enough. Try increasing the length of the password or the password comlexity"
         None))
      (fun _ => ret false)
  else
    io_bind (getpass "Retype your password: ")
      (fun password_verification =>
         if negb (String.eqb password password_verification) then
           io_bind (print "Passwords do not match") (fun _ => ret false)
         else ret true).

(** The loop of [input_password], run at most [fuel] times. *)
Fixpoint input_password_loop (fuel : nat) : io string :=
  match fuel with
  | O => fun c => (OutOfFuel, c)
  | S fuel' =>
      io_bind (getpass "Specify password for key encryption: ")
        (fun password =>
           io_bind (validate_password password)
             (fun valid =>
                if valid then ret password else input_password_loop fuel'))
  end.

(** Every turn of the loop reads a line, so one turn more than there are
    lines is enough. *)
Definition input_password : io string :=
  fun c => input_password_loop (S (List.length (answers c))) c.

Definition validate_generate_mnemonic (mnemonic : list string) : io keypair :=
  if negb (existsb (Nat.eqb (List.length mnemonic)) [12; 15; 18; 21; 24]%nat)
  then
    io_bind
      (print (colored
         "Mnemonic has invalid size. This should be 12,15,18,21 or 24 words"
         (Some "red")))
      (fun _ => quit)
  else
    match create_from_mnemonic (String.concat " " mnemonic) with
    | inr kp => ret kp
    | inl e => io_bind (print (colored e (Some "red"))) (fun _ => quit)
    end.

End Helpers.

(** A password that [validate_password] turns down without asking for it
    a second time: an empty one, or one that fails the policy. *)
Definition turned_down (policy_failures : string -> nat) (p : string) : bool :=
  String.eqb p "" || (0 <? policy_failures p)%nat.

End cli_utils.

(** * Properties *)

(** ** Decimal text of integers *)

Lemma int_digits_uint (l : Decimal.uint) (acc : Z) :
  int_digits AfterDigit acc (NilEmpty.string_of_uint l) = Some (uint_val l acc).
Proof.
  revert acc; induction l; intros acc; simpl; try reflexivity; apply IHl.
Qed.

Lemma uint_val_acc (d : Decimal.uint) (acc : positive) :
  uint_val d (Z.pos acc) = Z.pos (Pos.of_uint_acc d acc).
Proof.
  revert acc; induction d; intros acc;
    cbn [uint_val Pos.of_uint_acc]; try reflexivity;
    rewrite <- IHd; f_equal; lia.
Qed.

Lemma uint_val_of_uint (d : Decimal.uint) :
  uint_val d 0 = Z.of_N (Pos.of_uint d).
Proof.
  induction d; cbn [uint_val Pos.of_uint Z.of_N]; try reflexivity;
    try exact IHd; rewrite <- uint_val_acc; reflexivity.
Qed.

Lemma int_of_str_uint (d : Decimal.uint) :
  d <> Decimal.Nil ->
  int_of_str (NilZero.string_of_uint d) = Some (uint_val d 0)
  /\ int_of_str (String "-" (NilZero.string_of_uint d)) = Some (- uint_val d 0).
Proof.
  intros Hd; destruct d; try congruence; clear Hd;
    unfold int_of_str; simpl; rewrite int_digits_uint; split; reflexivity.
Qed.

Lemma int_of_str_of_int (z : Z) : int_of_str (str_of_int z) = Some z.
Proof.
  unfold str_of_int; destruct z as [|p|p]; simpl Z.to_int.
  - reflexivity.
  - cbn [NilZero.string_of_int].
    destruct (int_of_str_uint (DecimalPos.Unsigned.to_uint_nonnil p)) as [H _].
    rewrite H, uint_val_of_uint, DecimalPos.Unsigned.of_to; reflexivity.
  - cbn [NilZero.string_of_int].
    destruct (int_of_str_uint (DecimalPos.Unsigned.to_uint_nonnil p)) as [_ H].
    rewrite H, uint_val_of_uint, DecimalPos.Unsigned.of_to; reflexivity.
Qed.

(** ** Dictionaries with fresh keys *)

Lemma dict_get_app {V : Type} (d e : dict V) (k : string) :
  dict_get (d ++ e)%list k =
  match dict_get d k with Some v => Some v | None => dict_get e k end.
Proof.
  induction d as [|[k' v'] d IH]; simpl; [reflexivity|].
  destruct (String.eqb k' k); [reflexivity | exact IH].
Qed.

Lemma dict_set_fresh {V : Type} (d : dict V) (k : string) (v : V) :
  ~ In k (dict_keys d) -> dict_set d k v = (d ++ [(k, v)])%list.
Proof.
  induction d as [|[k' v'] d IH]; simpl; intros Hk; [reflexivity|].
  destruct (String.eqb_spec k' k) as [->|_]; [tauto|].
  rewrite IH by tauto; reflexivity.
Qed.

Lemma dict_update_fresh {V : Type} (e d : dict V) :
  NoDup (dict_keys e) ->
  (forall k, In k (dict_keys e) -> ~ In k (dict_keys d)) ->
  dict_update d e = (d ++ e)%list.
Proof.
  unfold dict_update; revert d;
    induction e as [|[k v] e IH]; intros d Hnd Hfresh; simpl.
  - symmetry; apply app_nil_r.
  - inversion Hnd as [|? ? Hk Hnd']; subst.
    rewrite dict_set_fresh by (apply Hfresh; left; reflexivity).
    rewrite IH.
    + rewrite <- app_assoc; reflexivity.
    + exact Hnd'.
    + intros k' Hin Hin'. unfold dict_keys in Hin'.
      rewrite map_app in Hin'. apply in_app_or in Hin' as [Hin'|Hin'].
      * apply (Hfresh k'); [right; exact Hin | exact Hin'].
      * simpl in Hin'. destruct Hin' as [<-|[]]. exact (Hk Hin).
Qed.

Lemma existsb_eqb_In (k : string) (l : list string) :
  existsb (String.eqb k) l = true <-> In k l.
Proof.
  rewrite existsb_exists; split.
  - intros [x [Hin Heq]]. apply String.eqb_eq in Heq; subst; exact Hin.
  - intros Hin; exists k; split; [exact Hin | apply String.eqb_refl].
Qed.

Lemma distinct_NoDup (l : list string) : distinct l = true -> NoDup l.
Proof.
  induction l as [|k l IH]; simpl; intros H; constructor;
    apply andb_true_iff in H as [Hk Hl].
  - intros Hin. apply existsb_eqb_In in Hin. rewrite Hin in Hk; discriminate.
  - exact (IH Hl).
Qed.

Lemma disjoint_spec (l l' : list string) (k : string) :
  disjoint l l' = true -> In k l -> ~ In k l'.
Proof.
  unfold disjoint; rewrite forallb_forall; intros H Hin Hin'.
  specialize (H k Hin). apply existsb_eqb_In in Hin'.
  rewrite Hin' in H; discriminate.
Qed.

Lemma NoDup_map_filter {A B : Type} (h : A -> B) (g : A -> bool) (l : list A) :
  NoDup (map h l) -> NoDup (map h (filter g l)).
Proof.
  induction l as [|x l IH]; simpl; intros Hnd; [constructor|].
  inversion Hnd as [|? ? Hx Hnd']; subst.
  destruct (g x); simpl; [constructor|]; auto.
  intros Hin; apply Hx. apply in_map_iff in Hin as [y [Hy Hin]].
  apply in_map_iff; exists y; split; [exact Hy|].
  apply filter_In in Hin; tauto.
Qed.

Lemma incl_map_filter {A B : Type} (h : A -> B) (g : A -> bool) (l : list A) :
  incl (map h (filter g l)) (map h l).
Proof.
  intros y Hin. apply in_map_iff in Hin as [x [Hx Hin]].
  apply in_map_iff; exists x; split; [exact Hx|].
  apply filter_In in Hin; tauto.
Qed.

(** Evaluation of [k.split(prefix)[1]] on a literal key. *)
Ltac eval_split :=
  repeat match goal with
  | |- context [index1 (split ?p ?k)] =>
      let r := eval vm_compute in (index1 (split p k)) in
      change (index1 (split p k)) with r; cbv beta iota
  end.

(** ** Construction from a model's own dictionary *)

Section Codec.

Context {PF : PyFloat}.

Lemma validate_int_opt (o : option Z) :
  with_pre cast_int int_validator (opt_val VInt o) = Ok o.
Proof. destruct o; reflexivity. Qed.

Lemma validate_str_opt (o : option string) :
  str_validator (opt_val VStr o) = Ok o.
Proof. destruct o; reflexivity. Qed.

Lemma validate_float_opt (o : option pyfloat) :
  with_pre cast_float float_validator (opt_val VFloat o) = Ok o.
Proof. destruct o; reflexivity. Qed.

Lemma TerminalInfo_init_dict (t : TerminalInfo) :
  TerminalInfo_init (TerminalInfo_dict t) = Ok t.
Proof.
  destruct t; unfold TerminalInfo_init, init_field, TerminalInfo_dict.
  simpl dict_get.
  unfold validate_status_code, validate_status_message,
    validate_process_time, validate_ip, validate_port, validate_version,
    validate_nonce, validate_uuid, validate_hotkey, validate_signature.
  cbn [status_code status_message process_time ip port version nonce uuid
       hotkey signature].
  rewrite !validate_int_opt, !validate_str_opt, !validate_float_opt.
  reflexivity.
Qed.

Lemma TerminalInfo_init_empty : TerminalInfo_init [] = Ok TerminalInfo_default.
Proof. reflexivity. Qed.

Lemma validate_terminal_dict (o : option TerminalInfo) :
  validate_terminal (opt_terminal_dict o) = Ok o.
Proof.
  destruct o as [t|]; simpl; [|reflexivity].
  rewrite TerminalInfo_init_dict; reflexivity.
Qed.

(** [Synapse] constructed from [self.dict()] keeps the timeout and the two terminals and
    names the result after the class that is constructed. *)
Lemma Synapse_init_dict (cls : string) (self : Synapse) :
  Synapse_init cls (Synapse_dict self) =
  Ok {| class_name := cls; name := Some cls; timeout := timeout self;
        dendrite := dendrite self; axon := axon self |}.
Proof.
  unfold Synapse_init, init_field, Synapse_dict, set_name_type.
  simpl dict_set. simpl dict_get. cbv beta iota.
  rewrite !validate_terminal_dict.
  unfold validate_timeout, validate_name.
  destruct (timeout self); reflexivity.
Qed.

(** ** The header map written by [to_headers] *)

Lemma header_items_keys (prefix : string) (t : TerminalInfo) :
  incl (dict_keys (header_items prefix t))
       (map (fun k => prefix ++ k) TerminalInfo_fields).
Proof.
  unfold header_items, dict_keys. rewrite map_map. cbn [fst].
  intros k Hin. apply incl_map_filter in Hin. exact Hin.
Qed.

Lemma header_items_NoDup (prefix : string) (t : TerminalInfo) :
  distinct (map (fun k => prefix ++ k) TerminalInfo_fields) = true ->
  NoDup (dict_keys (header_items prefix t)).
Proof.
  intros Hd. unfold header_items, dict_keys. rewrite map_map. cbn [fst].
  apply NoDup_map_filter. apply distinct_NoDup. exact Hd.
Qed.

Lemma prefixed_items_eq (prefix : string) (t : TerminalInfo) :
  distinct (map (fun k => prefix ++ k) TerminalInfo_fields) = true ->
  prefixed_items prefix (TerminalInfo_dict t) = header_items prefix t.
Proof.
  intros Hd. unfold prefixed_items, dict_of_items.
  fold (header_items prefix t).
  rewrite dict_update_fresh; [reflexivity | | intros k _ []].
  apply header_items_NoDup; exact Hd.
Qed.

Lemma to_headers_eq (self : Synapse) (a d : TerminalInfo) :
  axon self = Some a -> dendrite self = Some d ->
  to_headers self = Ok (header_map (timeout self) a d).
Proof.
  intros Ha Hd. unfold to_headers. rewrite Synapse_init_dict.
  cbn [bind axon dendrite timeout name opt_val]. rewrite Ha, Hd.
  cbn [bind terminal_dict_of].
  rewrite !prefixed_items_eq by reflexivity.
  f_equal. unfold header_map.
  set (base := [("name", VStr "Synapse");
                ("timeout", VStr (py_str (opt_val VFloat (timeout self))))]).
  assert (Hbase : dict_update base (header_items "axon_" a)
                  = (base ++ header_items "axon_" a)%list).
  { apply dict_update_fresh; [apply header_items_NoDup; reflexivity|].
    intros k Hin Hin'. apply header_items_keys in Hin.
    refine (@disjoint_spec _ _ k _ Hin Hin'). reflexivity. }
  rewrite Hbase. rewrite dict_update_fresh.
  - rewrite <- app_assoc. reflexivity.
  - apply header_items_NoDup; reflexivity.
  - intros k Hin Hin'. apply header_items_keys in Hin.
    unfold dict_keys in Hin'. rewrite map_app in Hin'.
    apply in_app_or in Hin' as [Hin'|Hin'].
    + refine (@disjoint_spec _ _ k _ Hin Hin'). reflexivity.
    + apply header_items_keys in Hin'.
      refine (@disjoint_spec _ _ k _ Hin Hin'). reflexivity.
Qed.

(** ** One pass of the decoding loop *)

Lemma step_axon_field (k : string) (v : scalar) (synapse : Synapse) :
  In k TerminalInfo_fields ->
  from_headers_step synapse ("axon_" ++ k, v) =
  match setattr_axon synapse k v with Ok s' => s' | Raise _ => synapse end.
Proof.
  intros Hin; simpl in Hin.
  repeat (destruct Hin as [<-|Hin]; [|]); try contradiction;
    unfold from_headers_step, try_axon; cbn [fst snd];
    eval_split; destruct (setattr_axon _ _ _);
    unfold try_dendrite; eval_split; reflexivity.
Qed.

Lemma step_dendrite_field (k : string) (v : scalar) (synapse : Synapse) :
  In k TerminalInfo_fields ->
  from_headers_step synapse ("dendrite_" ++ k, v) =
  match setattr_dendrite synapse k v with Ok s' => s' | Raise _ => synapse end.
Proof.
  intros Hin; simpl in Hin.
  repeat (destruct Hin as [<-|Hin]; [|]); try contradiction;
    unfold from_headers_step, try_axon, try_dendrite; cbn [fst snd];
    eval_split; destruct (setattr_dendrite _ _ _); reflexivity.
Qed.

(** A key in which neither ["axon_"] nor ["dendrite_"] occurs changes
    nothing. *)
Lemma step_no_separator (k : string) (v : scalar) (synapse : Synapse) :
  index1 (split "axon_" k) = Raise IndexError ->
  index1 (split "dendrite_" k) = Raise IndexError ->
  from_headers_step synapse (k, v) = synapse.
Proof.
  intros Ha Hd. unfold from_headers_step, try_axon, try_dendrite.
  cbn [fst snd]. rewrite Ha, Hd. reflexivity.
Qed.

Lemma with_axon_same (synapse : Synapse) (a : TerminalInfo) :
  axon synapse = Some a -> with_axon (Some a) synapse = synapse.
Proof. destruct synapse; simpl; intros ->; reflexivity. Qed.

Lemma with_dendrite_same (synapse : Synapse) (d : TerminalInfo) :
  dendrite synapse = Some d -> with_dendrite (Some d) synapse = synapse.
Proof. destruct synapse; simpl; intros ->; reflexivity. Qed.

Lemma fold_axon_items (l : dict scalar) :
  (forall kv, In kv l -> In (fst kv) TerminalInfo_fields) ->
  forall (synapse : Synapse) (a0 : TerminalInfo),
    axon synapse = Some a0 ->
    fold_left from_headers_step
      (map (fun kv => ("axon_" ++ fst kv, snd kv)) l) synapse
    = with_axon (Some (fold_left set_or_keep l a0)) synapse.
Proof.
  induction l as [|[k v] l IH]; intros Hkeys synapse a0 Ha;
    cbn [map fold_left fst snd].
  - symmetry; apply with_axon_same; exact Ha.
  - rewrite step_axon_field by (apply (Hkeys (k, v)); left; reflexivity).
    unfold setattr_axon, set_or_keep. rewrite Ha. cbn [fst snd].
    destruct (TerminalInfo_setattr a0 k v) as [t'|e]; cbn [bind].
    + rewrite (IH (fun kv H => Hkeys kv (or_intror H)) _ t') by reflexivity.
      reflexivity.
    + apply IH; [intros kv H; apply Hkeys; right; exact H | exact Ha].
Qed.

Lemma fold_dendrite_items (l : dict scalar) :
  (forall kv, In kv l -> In (fst kv) TerminalInfo_fields) ->
  forall (synapse : Synapse) (d0 : TerminalInfo),
    dendrite synapse = Some d0 ->
    fold_left from_headers_step
      (map (fun kv => ("dendrite_" ++ fst kv, snd kv)) l) synapse
    = with_dendrite (Some (fold_left set_or_keep l d0)) synapse.
Proof.
  induction l as [|[k v] l IH]; intros Hkeys synapse d0 Hd;
    cbn [map fold_left fst snd].
  - symmetry; apply with_dendrite_same; exact Hd.
  - rewrite step_dendrite_field by (apply (Hkeys (k, v)); left; reflexivity).
    unfold setattr_dendrite, set_or_keep. rewrite Hd. cbn [fst snd].
    destruct (TerminalInfo_setattr d0 k v) as [t'|e]; cbn [bind].
    + rewrite (IH (fun kv H => Hkeys kv (or_intror H)) _ t') by reflexivity.
      reflexivity.
    + apply IH; [intros kv H; apply Hkeys; right; exact H | exact Hd].
Qed.

Lemma header_items_text (prefix : string) (t : TerminalInfo) :
  header_items prefix t =
  map (fun kv => (prefix ++ fst kv, snd kv)) (text_items t).
Proof. unfold header_items, text_items. rewrite map_map. reflexivity. Qed.

Lemma text_items_keys (t : TerminalInfo) (kv : string * scalar) :
  In kv (text_items t) -> In (fst kv) TerminalInfo_fields.
Proof.
  unfold text_items. intros Hin.
  apply in_map_iff in Hin as [x [<- Hin]]. apply filter_In in Hin as [Hin _].
  cbn [fst]. exact (in_map fst _ _ Hin).
Qed.

(** ** Assignments of header text to a terminal *)

Lemma validate_int_text (s : string) :
  with_pre cast_int int_validator (VStr s) =
  match int_of_str s with
  | Some z => Ok (Some z)
  | None => Raise ValueError
  end.
Proof.
  unfold with_pre, cast_int; cbn [not_none py_int bind].
  destruct (int_of_str s); reflexivity.
Qed.

Lemma validate_float_text (s : string) :
  with_pre cast_float float_validator (VStr s) =
  match float_of_str s with
  | Some f => Ok (Some f)
  | None => Raise ValueError
  end.
Proof.
  unfold with_pre, cast_float; cbn [not_none py_float bind].
  destruct (float_of_str s); reflexivity.
Qed.

Lemma setattr_int_text (t : TerminalInfo) (k : string) (s : string)
    (set : option Z -> TerminalInfo -> TerminalInfo) :
  (forall v, TerminalInfo_setattr t k v =
             (x <- assign k (with_pre cast_int int_validator v) ;;
              Ok (set x t))) ->
  TerminalInfo_setattr t k (VStr s) =
  match int_of_str s with
  | Some z => Ok (set (Some z) t)
  | None => Raise (ValidationError [k])
  end.
Proof.
  intros H. rewrite H, validate_int_text.
  destruct (int_of_str s); reflexivity.
Qed.

Lemma fold_text_int (k : string) (o : option Z) (l : dict scalar)
    (t0 : TerminalInfo) (set : option Z -> TerminalInfo -> TerminalInfo) :
  (forall t v, TerminalInfo_setattr t k v =
               (x <- assign k (with_pre cast_int int_validator v) ;;
                Ok (set x t))) ->
  fold_left set_or_keep
    (map (fun kv => (fst kv, VStr (py_str (snd kv))))
       (filter (fun kv => not_none (snd kv)) ((k, opt_val VInt o) :: l))) t0
  = fold_left set_or_keep
      (map (fun kv => (fst kv, VStr (py_str (snd kv))))
         (filter (fun kv => not_none (snd kv)) l))
      (match o with Some z => set (Some z) t0 | None => t0 end).
Proof.
  intros H. destruct o as [z|]; [|reflexivity].
  cbn [filter snd opt_val not_none map fold_left fst py_str].
  unfold set_or_keep at 2. cbn [fst snd].
  rewrite (@setattr_int_text _ _ _ _ (H t0)), int_of_str_of_int. reflexivity.
Qed.

Lemma fold_text_str (k : string) (o : option string) (l : dict scalar)
    (t0 : TerminalInfo) (set : option string -> TerminalInfo -> TerminalInfo) :
  (forall t v, TerminalInfo_setattr t k v =
               (x <- assign k (str_validator v) ;; Ok (set x t))) ->
  fold_left set_or_keep
    (map (fun kv => (fst kv, VStr (py_str (snd kv))))
       (filter (fun kv => not_none (snd kv)) ((k, opt_val VStr o) :: l))) t0
  = fold_left set_or_keep
      (map (fun kv => (fst kv, VStr (py_str (snd kv))))
         (filter (fun kv => not_none (snd kv)) l))
      (match o with Some z => set (Some z) t0 | None => t0 end).
Proof.
  intros H. destruct o as [z|]; [|reflexivity].
  cbn [filter snd opt_val not_none map fold_left fst py_str].
  unfold set_or_keep at 2. cbn [fst snd].
  rewrite H. reflexivity.
Qed.

Section RoundTrip.

(** [float(str(x)) == x]: [str] of a float is its shortest text that
    reads back as the same float. *)
Hypothesis float_of_str_of_float :
  forall f : pyfloat, float_of_str (str_of_float f) = Some f.

Lemma fold_text_float (k : string) (o : option pyfloat) (l : dict scalar)
    (t0 : TerminalInfo) (set : option pyfloat -> TerminalInfo -> TerminalInfo) :
  (forall t v, TerminalInfo_setattr t k v =
               (x <- assign k (with_pre cast_float float_validator v) ;;
                Ok (set x t))) ->
  fold_left set_or_keep
    (map (fun kv => (fst kv, VStr (py_str (snd kv))))
       (filter (fun kv => not_none (snd kv)) ((k, opt_val VFloat o) :: l))) t0
  = fold_left set_or_keep
      (map (fun kv => (fst kv, VStr (py_str (snd kv))))
         (filter (fun kv => not_none (snd kv)) l))
      (match o with Some z => set (Some z) t0 | None => t0 end).
Proof.
  intros H. destruct o as [z|]; [|reflexivity].
  cbn [filter snd opt_val not_none map fold_left fst py_str].
  unfold set_or_keep at 2. cbn [fst snd].
  rewrite H, validate_float_text, float_of_str_of_float. reflexivity.
Qed.

(** Decoding the entries written for [t] sets exactly the set fields of
    [t]. *)
Lemma fold_text_items (t t0 : TerminalInfo) :
  fold_left set_or_keep (text_items t) t0 = overlay_terminal t t0.
Proof.
  destruct t as [f1 f2 f3 f4 f5 f6 f7 f8 f9 f10].
  unfold text_items, TerminalInfo_dict.
  cbn [status_code status_message process_time ip port version nonce uuid
       hotkey signature].
  rewrite (@fold_text_int "status_code" _ _ _ set_status_code) by reflexivity.
  rewrite (@fold_text_str "status_message" _ _ _ set_status_message) by reflexivity.
  rewrite (@fold_text_float "process_time" _ _ _ set_process_time) by reflexivity.
  rewrite (@fold_text_str "ip" _ _ _ set_ip) by reflexivity.
  rewrite (@fold_text_int "port" _ _ _ set_port) by reflexivity.
  rewrite (@fold_text_int "version" _ _ _ set_version) by reflexivity.
  rewrite (@fold_text_int "nonce" _ _ _ set_nonce) by reflexivity.
  rewrite (@fold_text_str "uuid" _ _ _ set_uuid) by reflexivity.
  rewrite (@fold_text_str "hotkey" _ _ _ set_hotkey) by reflexivity.
  rewrite (@fold_text_str "signature" _ _ _ set_signature) by reflexivity.
  cbn [filter map fold_left].
  destruct t0; destruct f1, f2, f3, f4, f5, f6, f7, f8, f9, f10; reflexivity.
Qed.

Lemma overlay_None {A : Type} (o : option A) : overlay o None = o.
Proof. destruct o; reflexivity. Qed.

Lemma overlay_terminal_default (t : TerminalInfo) :
  overlay_terminal t TerminalInfo_default = t.
Proof.
  destruct t; unfold overlay_terminal, TerminalInfo_default; cbn.
  rewrite !overlay_None. reflexivity.
Qed.

Lemma Synapse_init_empty (cls : string) :
  Synapse_init cls [] =
  Ok {| class_name := cls; name := Some cls; timeout := Some float_12;
        dendrite := Some TerminalInfo_default;
        axon := Some TerminalInfo_default |}.
Proof. reflexivity. Qed.

Lemma Synapse_setattr_timeout (self : Synapse) (f : pyfloat) :
  Synapse_setattr self "timeout" (Scalar (VFloat f)) =
  Ok (with_timeout (Some f) (with_name (Some (class_name self)) self)).
Proof. reflexivity. Qed.

Lemma Synapse_setattr_name (self : Synapse) (s : string) :
  Synapse_setattr self "name" (Scalar (VStr s)) = Ok (with_name (Some s) self).
Proof. reflexivity. Qed.

(** Decoding the header map of a synapse gives back its timeout and its
    two terminals, in a [Synapse] named ["Synapse"]. *)
Lemma from_headers_header_map (t : pyfloat) (a d : TerminalInfo) :
  from_headers (header_map (Some t) a d) =
  Ok {| class_name := "Synapse"; name := Some "Synapse"; timeout := Some t;
        dendrite := Some d; axon := Some a |}.
Proof.
  unfold from_headers. rewrite Synapse_init_empty. cbn [bind].
  change (get_or_none (header_map (Some t) a d) "timeout")
    with (VStr (str_of_float t)).
  change (get_or_none (header_map (Some t) a d) "name")
    with (VStr "Synapse").
  cbn [py_float]. rewrite float_of_str_of_float. cbn [bind].
  rewrite Synapse_setattr_timeout. cbn [bind].
  rewrite Synapse_setattr_name. cbn [bind]. f_equal.
  unfold header_map. rewrite !fold_left_app. cbn [fold_left].
  rewrite !step_no_separator by reflexivity.
  rewrite !header_items_text.
  rewrite (@fold_axon_items _ (@text_items_keys a) _ TerminalInfo_default)
    by reflexivity.
  rewrite (@fold_dendrite_items _ (@text_items_keys d) _ TerminalInfo_default)
    by reflexivity.
  rewrite !fold_text_items, !overlay_terminal_default. reflexivity.
Qed.

End RoundTrip.

(** ** [from_headers] in one equation *)

Lemma Synapse_setattr_name_scalar (self : Synapse) (v : scalar) :
  Synapse_setattr self "name" (Scalar v) = Ok (with_name (decoded_name v) self).
Proof. destruct v; reflexivity. Qed.

Lemma from_headers_eq (headers : dict scalar) :
  from_headers headers =
  (f <- py_float (get_or_none headers "timeout") ;;
   Ok (fold_left from_headers_step headers
         (decoded_start f (decoded_name (get_or_none headers "name"))))).
Proof.
  unfold from_headers. rewrite Synapse_init_empty. cbn [bind].
  destruct (py_float (get_or_none headers "timeout")) as [f|e]; cbn [bind];
    [|reflexivity].
  rewrite Synapse_setattr_timeout. cbn [bind].
  rewrite Synapse_setattr_name_scalar. reflexivity.
Qed.

Lemma get_or_none_skip (h1 h2 : dict scalar) (k k' : string) (v : scalar) :
  String.eqb k' k = false ->
  get_or_none (h1 ++ (k', v) :: h2)%list k = get_or_none (h1 ++ h2)%list k.
Proof.
  intros Hk. unfold get_or_none. rewrite !dict_get_app. cbn [dict_get].
  rewrite Hk. reflexivity.
Qed.

(** An entry on which the loop body does nothing can be dropped. *)
Lemma from_headers_skip (h1 h2 : dict scalar) (k : string) (v : scalar) :
  String.eqb k "timeout" = false -> String.eqb k "name" = false ->
  (forall synapse, from_headers_step synapse (k, v) = synapse) ->
  from_headers (h1 ++ (k, v) :: h2)%list = from_headers (h1 ++ h2)%list.
Proof.
  intros Ht Hn Hstep. rewrite !from_headers_eq.
  rewrite !get_or_none_skip by assumption.
  destruct (py_float (get_or_none (h1 ++ h2)%list "timeout")); [|reflexivity].
  cbn [bind]. rewrite !fold_left_app. cbn [fold_left]. rewrite Hstep.
  reflexivity.
Qed.

Lemma to_headers_Ok_inv (self : Synapse) (h : dict scalar) :
  to_headers self = Ok h ->
  exists a d, axon self = Some a /\ dendrite self = Some d.
Proof.
  unfold to_headers. rewrite Synapse_init_dict. cbn [bind axon dendrite].
  destruct (axon self) as [a|]; [|discriminate]. cbn [terminal_dict_of bind].
  destruct (dendrite self) as [d|]; [|discriminate]. eauto.
Qed.

Lemma dict_get_set_same {V : Type} (d : dict V) (k : string) (v : V) :
  dict_get (dict_set d k v) k = Some v.
Proof.
  induction d as [|[k' v'] d IH]; simpl.
  - rewrite String.eqb_refl; reflexivity.
  - destruct (String.eqb k' k) eqn:E; simpl; rewrite E; [reflexivity | exact IH].
Qed.

Lemma dict_set_set {V : Type} (d : dict V) (k : string) (v w : V) :
  dict_set (dict_set d k v) k w = dict_set d k w.
Proof.
  induction d as [|[k' v'] d IH]; simpl.
  - rewrite String.eqb_refl; reflexivity.
  - destruct (String.eqb k' k) eqn:E; simpl; rewrite E;
      [reflexivity | rewrite IH; reflexivity].
Qed.

End Codec.

(** ** The instance satisfies what is assumed of floats *)

Lemma append_nil_r (s : string) : s ++ "" = s.
Proof. induction s; simpl; [reflexivity | rewrite IHs; reflexivity]. Qed.

Lemma append_cons_r (s s' : string) (c : ascii) :
  (s ++ String c "") ++ s' = s ++ String c s'.
Proof. induction s; simpl; [reflexivity | rewrite IHs; reflexivity]. Qed.

Lemma split_no_dot (s cur : string) :
  no_dot s = true -> split_go "." 0 cur (s ++ ".0") = [cur ++ s; "0"].
Proof.
  revert cur; induction s as [|c s IH]; intros cur Hs.
  - rewrite append_nil_r. reflexivity.
  - simpl in Hs. apply andb_true_iff in Hs as [Hc Hs].
    cbn [append split_go starts_with].
    rewrite Ascii.eqb_sym. apply negb_true_iff in Hc. rewrite Hc.
    cbn [andb]. rewrite (IH _ Hs), append_cons_r. reflexivity.
Qed.

Lemma no_dot_uint (d : Decimal.uint) :
  no_dot (NilEmpty.string_of_uint d) = true.
Proof. induction d; simpl; try reflexivity; exact IHd. Qed.

Lemma no_dot_str_of_int (z : Z) : no_dot (str_of_int z) = true.
Proof.
  unfold str_of_int, NilZero.string_of_int, NilZero.string_of_uint.
  destruct (Z.to_int z) as [d|d]; destruct d; try reflexivity;
    cbn [no_dot Ascii.eqb Bool.eqb negb andb];
    match goal with
    | |- no_dot (NilEmpty.string_of_uint ?u) = true => apply (no_dot_uint u)
    end.
Qed.

Lemma integral_round_trip (z : Z) :
  @float_of_str IntegralFloat (@str_of_float IntegralFloat z) = Some z.
Proof.
  cbn [float_of_str str_of_float IntegralFloat]. unfold integral_of_str, split.
  rewrite split_no_dot by apply no_dot_str_of_int. cbn [append].
  rewrite int_of_str_of_int, String.eqb_refl. reflexivity.
Qed.

(** ** Facts shared by the claims *)

Lemma Synapse_init_name (PF : PyFloat) (cls : string) (kwargs : dict pyval) :
  match Synapse_init cls kwargs with
  | Ok self => name self = Some cls /\ class_name self = cls
  | Raise _ => True
  end.
Proof.
  unfold Synapse_init, set_name_type.
  unfold init_field at 1. rewrite dict_get_set_same.
  cbn [validate_name str_validator py_str bind].
  destruct (init_field _ "timeout" _ _ _) as [[t e]|]; cbn [bind]; [|exact I].
  destruct (init_field _ "dendrite" _ _ _) as [[d e']|]; cbn [bind]; [|exact I].
  destruct (init_field _ "axon" _ _ _) as [[a e'']|]; cbn [bind]; [|exact I].
  destruct e''; [split; reflexivity | exact I].
Qed.

(** An entry whose key contains neither ["axon_"] nor ["dendrite_"], and
    is neither [timeout] nor [name], does not change what is decoded. *)
Lemma key_without_separator_ignored (PF : PyFloat)
    (h1 h2 : dict scalar) (k : string) (v : scalar) :
  index1 (split "axon_" k) = Raise IndexError ->
  index1 (split "dendrite_" k) = Raise IndexError ->
  String.eqb k "timeout" = false -> String.eqb k "name" = false ->
  from_headers (h1 ++ (k, v) :: h2)%list = from_headers (h1 ++ h2)%list.
Proof.
  intros Ha Hd Ht Hn. apply from_headers_skip; try assumption.
  intros synapse. apply step_no_separator; assumption.
Qed.

(** A key made of a recognized prefix and a suffix that is no field, and
    in which ["dendrite_"] does not occur, does not change what is
    decoded either. *)
Lemma axon_key_with_unknown_suffix_ignored (PF : PyFloat)
    (synapse : Synapse) (v : scalar) :
  from_headers_step synapse ("axon_foo", v) = synapse
  /\ from_headers_step synapse ("dendrite_foo", v) = synapse
  /\ from_headers_step synapse ("foo_bar", v) = synapse.
Proof.
  repeat split; unfold from_headers_step, try_axon, try_dendrite;
    cbn [fst snd]; eval_split;
    unfold setattr_axon, setattr_dendrite;
    try destruct (axon synapse); try destruct (dendrite synapse);
    reflexivity.
Qed.

(** * The claims *)

(** C1.  Round trip.  For a synapse whose timeout and two terminals are
    set, decoding the header map that encodes it succeeds and gives back
    the timeout and every field of both terminals, value for value.  The
    name that comes back is ["Synapse"] whatever the name of the encoded
    synapse is: [to_headers] writes the name of the base-class copy it
    builds. *)
Theorem C1_round_trip_name (PF : PyFloat)
    (Hrt : forall f : pyfloat, float_of_str (str_of_float f) = Some f)
    (self : Synapse) (t : pyfloat) (a d : TerminalInfo) :
  timeout self = Some t -> axon self = Some a -> dendrite self = Some d ->
  (h <- to_headers self ;; from_headers h) =
  Ok {| class_name := "Synapse"; name := Some "Synapse"; timeout := Some t;
        dendrite := Some d; axon := Some a |}.
Proof.
  intros Ht Ha Hd. rewrite (to_headers_eq self Ha Hd). cbn [bind].
  rewrite Ht. apply from_headers_header_map. exact Hrt.
Qed.

Lemma C1_round_trip_name_witness :
  (forall z : Z,
     @float_of_str IntegralFloat (@str_of_float IntegralFloat z) = Some z)
  /\ name forward_call = Some "Forward"
  /\ (h <- to_headers forward_call ;; from_headers h) =
     Ok {| class_name := "Synapse"; name := Some "Synapse";
           timeout := Some (12 : @pyfloat IntegralFloat);
           dendrite := Some forward_dendrite;
           axon := Some (@TerminalInfo_default IntegralFloat) |}.
Proof.
  split; [exact integral_round_trip|].
  split; [reflexivity|].
  apply (@C1_round_trip_name IntegralFloat integral_round_trip forward_call
           12 (@TerminalInfo_default IntegralFloat) forward_dendrite);
    reflexivity.
Defined.

(** C2.  Concrete scenario, as the code has it.  Encoding
    [Synapse(name="Forward", timeout=12.0,
             axon=TerminalInfo(hotkey="5Enj...", nonce=111111))]
    yields exactly the four entries [name=Synapse], [timeout=12.0],
    [axon_nonce=111111], [axon_hotkey=5Enj...] and no key that starts with
    [dendrite_]: the [name] passed to the constructor is replaced by the
    class name. *)
Theorem C2_concrete_scenario (PF : PyFloat) :
  str_of_float float_12 = "12.0" ->
  concrete_scenario =
  Ok [ ("name", VStr "Synapse"); ("timeout", VStr "12.0");
       ("axon_nonce", VStr "111111"); ("axon_hotkey", VStr "5Enj...") ].
Proof.
  intros H12. unfold concrete_scenario.
  change (TerminalInfo_init [("hotkey", VStr "5Enj..."); ("nonce", VInt 111111)])
    with (Ok (set_hotkey (Some "5Enj...")
                (set_nonce (Some 111111) TerminalInfo_default))).
  cbn [bind].
  match goal with
  | |- (s <- ?i ;; _) = _ =>
      change i with
        (Ok {| class_name := "Synapse"; name := Some "Synapse";
               timeout := Some float_12;
               dendrite := Some TerminalInfo_default;
               axon := Some (set_hotkey (Some "5Enj...")
                               (set_nonce (Some 111111) TerminalInfo_default)) |})
  end.
  cbn [bind]. erewrite to_headers_eq by reflexivity.
  cbn [timeout]. unfold header_map. cbn [opt_val py_str]. rewrite H12.
  reflexivity.
Qed.

Lemma C2_concrete_scenario_witness :
  @str_of_float IntegralFloat (@float_12 IntegralFloat) = "12.0"
  /\ @concrete_scenario IntegralFloat =
     Ok [ ("name", VStr "Synapse"); ("timeout", VStr "12.0");
          ("axon_nonce", VStr "111111"); ("axon_hotkey", VStr "5Enj...") ].
Proof.
  split; [reflexivity|].
  apply (@C2_concrete_scenario IntegralFloat). reflexivity.
Defined.

(** C2, as stated, fails: the entry under [name] in the encoded scenario is
    [Synapse], not [Forward]. *)
Lemma C2_name_is_not_Forward :
  (h <- @concrete_scenario IntegralFloat ;; Ok (dict_get h "name"))
  = Ok (Some (VStr "Synapse")).
Proof. reflexivity. Qed.

(** C3.  The prefix rule, evaluated.  A key that starts with neither
    prefix but has ["axon_"] inside it is not ignored: [foo_axon_port]
    sets [axon.port].  A key that starts with ["axon_"] and goes on with
    ["dendrite_"] sets the dendrite: [axon_dendrite_port] sets
    [dendrite.port].  (The loop takes the piece after the first occurrence
    of the prefix, [k.split(prefix)[1]], wherever that occurrence is.) *)
Theorem C3_prefix_rule_evaluated (PF : PyFloat) (f : pyfloat) :
  float_of_str "12.0" = Some f ->
  from_headers [("timeout", VStr "12.0")] = Ok (decoded_start f None)
  /\ from_headers [("timeout", VStr "12.0"); ("foo_axon_port", VStr "80")]
     = Ok (with_axon (Some (set_port (Some 80) TerminalInfo_default))
             (decoded_start f None))
  /\ from_headers [("timeout", VStr "12.0"); ("axon_dendrite_port", VStr "80")]
     = Ok (with_dendrite (Some (set_port (Some 80) TerminalInfo_default))
             (decoded_start f None)).
Proof.
  intros Hf. repeat split; rewrite from_headers_eq;
    match goal with
    | |- context [get_or_none ?h "timeout"] =>
        change (get_or_none h "timeout") with (@VStr PF "12.0")
    end; cbn [py_float]; rewrite Hf; reflexivity.
Qed.

Lemma C3_prefix_rule_evaluated_witness :
  @float_of_str IntegralFloat "12.0" = Some 12
  /\ @from_headers IntegralFloat
       [("timeout", VStr "12.0"); ("foo_axon_port", VStr "80")]
     = Ok (with_axon (Some (set_port (Some 80) TerminalInfo_default))
             (decoded_start (12 : @pyfloat IntegralFloat) None)).
Proof.
  split; [reflexivity|].
  apply (@C3_prefix_rule_evaluated IntegralFloat 12). reflexivity.
Defined.

(** C4.  Field-level isolation, as the code has it.  When [axon_port]
    carries a text that [int] rejects and the timeout is readable,
    decoding succeeds and reports no error: the result is the synapse
    decoded from the same header map without that entry, so every other
    field is populated as it would be and the entry sets nothing. *)
Theorem C4_malformed_port_swallowed (PF : PyFloat)
    (h1 h2 : dict scalar) (s : string) (f : pyfloat) :
  int_of_str s = None ->
  py_float (get_or_none (h1 ++ h2)%list "timeout") = Ok f ->
  exists synapse,
    from_headers (h1 ++ ("axon_port", VStr s) :: h2)%list = Ok synapse
    /\ from_headers (h1 ++ h2)%list = Ok synapse.
Proof.
  intros Hs Hf.
  assert (Hstep : forall synapse,
             from_headers_step synapse ("axon_port", VStr s) = synapse).
  { intros synapse.
    rewrite (@step_axon_field _ "port") by (simpl; tauto).
    unfold setattr_axon. destruct (axon synapse) as [a|]; [|reflexivity].
    rewrite (@setattr_int_text _ a "port" s set_port) by reflexivity.
    rewrite Hs. reflexivity. }
  rewrite (@from_headers_skip _ h1 h2 "axon_port" (VStr s)) by
    (reflexivity || exact Hstep).
  rewrite from_headers_eq, Hf. cbn [bind]. eexists; split; reflexivity.
Qed.

Lemma C4_malformed_port_swallowed_witness :
  int_of_str "not-a-number" = None
  /\ @py_float IntegralFloat
       (get_or_none ([("timeout", VStr "12.0")]
                     ++ [("axon_ip", VStr "1.2.3.4")])%list "timeout")
     = Ok 12
  /\ exists synapse,
       @from_headers IntegralFloat
         ([("timeout", VStr "12.0")]
          ++ ("axon_port", VStr "not-a-number")
             :: [("axon_ip", VStr "1.2.3.4")])%list = Ok synapse
       /\ from_headers ([("timeout", VStr "12.0")]
                        ++ [("axon_ip", VStr "1.2.3.4")])%list = Ok synapse.
Proof.
  split; [reflexivity|]. split; [reflexivity|].
  apply (@C4_malformed_port_swallowed IntegralFloat
           [("timeout", VStr "12.0")] [("axon_ip", VStr "1.2.3.4")]
           "not-a-number" 12); reflexivity.
Defined.

(** C4, as stated, fails: with [axon_port = "not-a-number"] and every
    other entry valid, [from_headers] does not fail; it returns a synapse
    whose [axon.port] is unset and whose [axon.ip] is set. *)
Lemma C4_decoding_does_not_fail :
  @from_headers IntegralFloat
    [ ("timeout", VStr "12.0"); ("axon_port", VStr "not-a-number");
      ("axon_ip", VStr "1.2.3.4") ]
  = Ok (with_axon (Some (set_ip (Some "1.2.3.4") TerminalInfo_default))
          (decoded_start (12 : @pyfloat IntegralFloat) None)).
Proof. reflexivity. Qed.

(** C5.  Mandatory timeout.  When the header map has no [timeout] entry,
    or has one whose text [float] rejects, [from_headers] fails before
    anything is decoded: it raises [TypeError] (from [float(None)]) when
    the entry is absent and [ValueError] when the text does not parse. *)
Theorem C5_timeout_mandatory (PF : PyFloat) (headers : dict scalar) :
  (dict_get headers "timeout" = None
   \/ exists s, dict_get headers "timeout" = Some (VStr s)
                /\ float_of_str s = None) ->
  from_headers headers =
  Raise (match dict_get headers "timeout" with
         | None => TypeError
         | Some _ => ValueError
         end).
Proof.
  intros H. rewrite from_headers_eq. unfold get_or_none.
  destruct H as [H | [s [H Hs]]]; rewrite H; cbn [py_float];
    [|rewrite Hs]; reflexivity.
Qed.

Lemma C5_timeout_mandatory_witness :
  (dict_get (V := @scalar IntegralFloat) [("name", VStr "Forward")] "timeout"
   = None
   /\ @from_headers IntegralFloat [("name", VStr "Forward")] = Raise TypeError)
  /\ (@float_of_str IntegralFloat "soon" = None
      /\ @from_headers IntegralFloat
           [("name", VStr "Forward"); ("timeout", VStr "soon")]
         = Raise ValueError).
Proof.
  split; (split; [reflexivity|]).
  - apply (@C5_timeout_mandatory IntegralFloat [("name", VStr "Forward")]).
    left; reflexivity.
  - apply (@C5_timeout_mandatory IntegralFloat
             [("name", VStr "Forward"); ("timeout", VStr "soon")]).
    right; exists "soon"; split; reflexivity.
Defined.

(** C6.  The name, as the code has it.  Construction derives [name] from
    the class, and a later assignment of a string to [name] succeeds: the
    name becomes the assigned string and nothing is raised. *)
Theorem C6_name_reassigned (PF : PyFloat) :
  (forall (cls : string) (kwargs : dict pyval),
     match Synapse_init cls kwargs with
     | Ok self => name self = Some cls /\ class_name self = cls
     | Raise _ => True
     end)
  /\ (forall cls : string,
        Synapse_init cls [] =
        Ok {| class_name := cls; name := Some cls; timeout := Some float_12;
              dendrite := Some TerminalInfo_default;
              axon := Some TerminalInfo_default |})
  /\ (forall (self : Synapse) (s : string),
        Synapse_setattr self "name" (Scalar (VStr s))
        = Ok (with_name (Some s) self)).
Proof.
  split; [intros; apply Synapse_init_name|].
  split; intros; reflexivity.
Qed.

(** C6, as stated, fails: on a fresh [Synapse()], whose name is
    ["Synapse"], the assignment [name = "Forward"] succeeds and changes
    the name. *)
Lemma C6_assignment_succeeds :
  (s <- @Synapse_init IntegralFloat "Synapse" [] ;;
   Synapse_setattr s "name" (Scalar (VStr "Forward")))
  = Ok {| class_name := "Synapse"; name := Some "Forward";
          timeout := Some (12 : @pyfloat IntegralFloat);
          dendrite := Some TerminalInfo_default;
          axon := Some TerminalInfo_default |}.
Proof. reflexivity. Qed.

(** C7.  Idempotence, as the code has it.  For a header map produced by
    [to_headers] from a synapse whose timeout is set, decoding it and
    encoding the result gives the same header map, entry for entry. *)
Theorem C7_reencode (PF : PyFloat)
    (Hrt : forall f : pyfloat, float_of_str (str_of_float f) = Some f)
    (self : Synapse) (h : dict scalar) :
  timeout self <> None ->
  to_headers self = Ok h ->
  (s <- from_headers h ;; to_headers s) = Ok h.
Proof.
  intros Ht Hh.
  destruct (to_headers_Ok_inv _ Hh) as [a [d [Ha Hd]]].
  rewrite (to_headers_eq self Ha Hd) in Hh. injection Hh as <-.
  destruct (timeout self) as [t|]; [clear Ht | congruence].
  rewrite (from_headers_header_map Hrt). cbn [bind].
  exact (@to_headers_eq _
           {| class_name := "Synapse"; name := Some "Synapse";
              timeout := Some t; dendrite := Some d; axon := Some a |}
           a d eq_refl eq_refl).
Qed.

Lemma C7_reencode_witness :
  (forall z : Z,
     @float_of_str IntegralFloat (@str_of_float IntegralFloat z) = Some z)
  /\ timeout forward_call <> None
  /\ to_headers forward_call = Ok forward_headers
  /\ (s <- from_headers forward_headers ;; to_headers s) = Ok forward_headers.
Proof.
  split; [exact integral_round_trip|].
  split; [discriminate|]. split; [reflexivity|].
  apply (@C7_reencode IntegralFloat integral_round_trip forward_call
           forward_headers); [discriminate | reflexivity].
Defined.

(** C7, as stated, fails: the timeout of a synapse may be [None]; then
    [to_headers] writes the text ["None"] under [timeout], and decoding
    the header map it produced raises [ValueError], so there is nothing
    to encode again. *)
Lemma C7_unset_timeout_fails :
  to_headers (with_timeout None forward_call)
  = Ok [ ("name", VStr "Synapse"); ("timeout", VStr "None");
         ("dendrite_process_time", VStr "3.0");
         ("dendrite_ip", VStr "10.0.0.1"); ("dendrite_port", VStr "8091");
         ("dendrite_version", VStr "600"); ("dendrite_nonce", VStr "111111");
         ("dendrite_hotkey", VStr "5Enj...") ]
  /\ (s <- @from_headers IntegralFloat
              [ ("name", VStr "Synapse"); ("timeout", VStr "None");
                ("dendrite_process_time", VStr "3.0");
                ("dendrite_ip", VStr "10.0.0.1");
                ("dendrite_port", VStr "8091");
                ("dendrite_version", VStr "600");
                ("dendrite_nonce", VStr "111111");
                ("dendrite_hotkey", VStr "5Enj...") ] ;;
       to_headers s)
      = Raise ValueError.
Proof. split; reflexivity. Qed.

(** C8.  Unknown-prefix tolerance, evaluated.  Adding an entry under the
    key [foo_axon_ip], whose prefix [foo_] is not a recognized one,
    changes the result of decoding: the entry overwrites [axon.ip]. *)
Theorem C8_unknown_prefix_not_ignored (PF : PyFloat) (f : pyfloat) :
  float_of_str "12.0" = Some f ->
  from_headers [("timeout", VStr "12.0"); ("axon_ip", VStr "10.0.0.1")]
  = Ok (with_axon (Some (set_ip (Some "10.0.0.1") TerminalInfo_default))
          (decoded_start f None))
  /\ from_headers
       (dict_set [("timeout", VStr "12.0"); ("axon_ip", VStr "10.0.0.1")]
          "foo_axon_ip" (VStr "baz"))
     = Ok (with_axon (Some (set_ip (Some "baz") TerminalInfo_default))
             (decoded_start f None)).
Proof.
  intros Hf. split; rewrite from_headers_eq;
    match goal with
    | |- context [get_or_none ?h "timeout"] =>
        change (get_or_none h "timeout") with (@VStr PF "12.0")
    end; cbn [py_float]; rewrite Hf; reflexivity.
Qed.

Lemma C8_unknown_prefix_not_ignored_witness :
  @float_of_str IntegralFloat "12.0" = Some 12
  /\ @from_headers IntegralFloat
       (dict_set [("timeout", VStr "12.0"); ("axon_ip", VStr "10.0.0.1")]
          "foo_axon_ip" (VStr "baz"))
     = Ok (with_axon (Some (set_ip (Some "baz") TerminalInfo_default))
             (decoded_start (12 : @pyfloat IntegralFloat) None)).
Proof.
  split; [reflexivity|].
  apply (@C8_unknown_prefix_not_ignored IntegralFloat 12). reflexivity.
Defined.


(** C10.  The name passed to the constructor is discarded.  Constructing
    a synapse of class [cls] with [name=s] gives an instance named [cls];
    whatever is passed for [name], among any other keywords, the
    constructor does what it does without it; and every instance the
    constructor returns is named [cls]. *)
Theorem C10_name_argument_discarded (PF : PyFloat) (cls s : string) :
  Synapse_init cls [("name", Scalar (VStr s))] =
  Ok {| class_name := cls; name := Some cls; timeout := Some float_12;
        dendrite := Some TerminalInfo_default;
        axon := Some TerminalInfo_default |}
  /\ (forall (kwargs : dict pyval) (v : pyval),
        Synapse_init cls (dict_set kwargs "name" v) = Synapse_init cls kwargs)
  /\ (forall kwargs : dict pyval,
        match Synapse_init cls kwargs with
        | Ok self => name self = Some cls /\ class_name self = cls
        | Raise _ => True
        end).
Proof.
  split; [reflexivity|]. split.
  - intros kwargs v. unfold Synapse_init, set_name_type.
    rewrite dict_set_set. reflexivity.
  - intros kwargs. apply Synapse_init_name.
Qed.

(** * Further properties of the envelope *)

(** ** Keys and look-ups *)

Lemma split_go_without (sep s cur : string) :
  contains sep s = false -> split_go sep 0 cur s = [cur ++ s].
Proof.
  revert cur; induction s as [|c s IH]; intros cur H.
  - rewrite append_nil_r. reflexivity.
  - cbn [contains] in H. apply orb_false_iff in H as [H1 H2].
    cbn [split_go]. rewrite H1, (IH _ H2), append_cons_r. reflexivity.
Qed.

Lemma index1_split_without (sep s : string) :
  contains sep s = false -> index1 (split sep s) = Raise IndexError.
Proof.
  intros H. unfold split. rewrite (@split_go_without _ _ "" H). reflexivity.
Qed.

Lemma eqb_append_prefix (p a b : string) :
  String.eqb (p ++ a) (p ++ b) = String.eqb a b.
Proof.
  induction p as [|c p IH]; cbn [append String.eqb]; [reflexivity|].
  rewrite Ascii.eqb_refl. exact IH.
Qed.

Lemma dict_get_notin {V : Type} (d : dict V) (k : string) :
  ~ In k (dict_keys d) -> dict_get d k = None.
Proof.
  induction d as [|[k' v] d IH]; simpl; intros H; [reflexivity|].
  destruct (String.eqb_spec k' k) as [->|_]; [tauto|]. apply IH; tauto.
Qed.

Lemma dict_get_map_filter {V W : Type} (p : string) (f : V -> W)
    (g : V -> bool) (l : dict V) (k : string) :
  NoDup (dict_keys l) ->
  dict_get (map (fun kv => (p ++ fst kv, f (snd kv)))
              (filter (fun kv => g (snd kv)) l)) (p ++ k)
  = match dict_get l k with
    | Some v => if g v then Some (f v) else None
    | None => None
    end.
Proof.
  induction l as [|[k' v'] l IH]; intros Hnd; [reflexivity|].
  inversion Hnd as [|? ? Hk' Hnd']; subst.
  cbn [filter snd dict_get]. destruct (g v') eqn:Hg.
  - cbn [map fst snd dict_get]. rewrite eqb_append_prefix.
    destruct (String.eqb k' k); [rewrite Hg; reflexivity | exact (IH Hnd')].
  - rewrite (IH Hnd').
    destruct (String.eqb_spec k' k) as [->|_]; [|reflexivity].
    rewrite (@dict_get_notin _ _ _ Hk'), Hg. reflexivity.
Qed.

(** ** Encoding *)

(** X1.  [to_headers] raises [AttributeError] when the axon or the
    dendrite is [None]; otherwise it returns, in this order, the name
    ["Synapse"], the text of the timeout, an entry for every set field of
    the axon and an entry for every set field of the dendrite, each in
    declaration order.  No entry replaces another. *)
Theorem to_headers_closed_form (PF : PyFloat) (self : Synapse) :
  to_headers self =
  match axon self, dendrite self with
  | Some a, Some d => Ok (header_map (timeout self) a d)
  | _, _ => Raise AttributeError
  end.
Proof.
  destruct (axon self) as [a|] eqn:Ha; destruct (dendrite self) as [d|] eqn:Hd;
    [exact (to_headers_eq self Ha Hd) | | |];
    unfold to_headers; rewrite Synapse_init_dict;
    cbn [bind axon dendrite]; rewrite Ha; cbn [bind terminal_dict_of];
    rewrite ?Hd; reflexivity.
Qed.

Lemma header_items_get (PF : PyFloat) (prefix : string) (t : TerminalInfo)
    (k : string) :
  dict_get (header_items prefix t) (prefix ++ k) =
  match dict_get (TerminalInfo_dict t) k with
  | Some v => if not_none v then Some (VStr (py_str v)) else None
  | None => None
  end.
Proof.
  unfold header_items.
  apply (@dict_get_map_filter _ _ prefix (fun v => VStr (py_str v)) not_none).
  apply distinct_NoDup. reflexivity.
Qed.

Lemma header_items_get_other (PF : PyFloat) (prefix : string)
    (t : TerminalInfo) (k : string) :
  ~ In k (map (fun f => prefix ++ f) TerminalInfo_fields) ->
  dict_get (header_items prefix t) k = None.
Proof.
  intros H. apply dict_get_notin. intros Hin. apply H.
  exact (header_items_keys _ _ _ Hin).
Qed.

(** X2.  Omission.  In the header map of a synapse, the entry
    [axon_<field>] is there exactly when the field is set on the axon, and
    then it holds [str] of the value; likewise [dendrite_<field>] for the
    dendrite.  A field that is [None] has no entry. *)
Theorem header_entry_of_field (PF : PyFloat) (self : Synapse)
    (h : dict scalar) (a d : TerminalInfo) (k : string) (va vd : scalar) :
  to_headers self = Ok h ->
  axon self = Some a -> dendrite self = Some d ->
  dict_get (TerminalInfo_dict a) k = Some va ->
  dict_get (TerminalInfo_dict d) k = Some vd ->
  dict_get h ("axon_" ++ k)
  = (if not_none va then Some (VStr (py_str va)) else None)
  /\ dict_get h ("dendrite_" ++ k)
     = (if not_none vd then Some (VStr (py_str vd)) else None).
Proof.
  intros Hh Ha Hd Hva Hvd.
  rewrite (to_headers_eq self Ha Hd) in Hh. injection Hh as <-.
  unfold header_map. rewrite !dict_get_app.
  rewrite !(@dict_get_notin _ [("name", _); ("timeout", _)])
    by (simpl; intros [H|[H|[]]]; discriminate H).
  split.
  - rewrite header_items_get, Hva.
    destruct (not_none va); [reflexivity|].
    apply header_items_get_other. simpl.
    intros H; repeat (destruct H as [H|H]; [discriminate H|]); exact H.
  - rewrite header_items_get_other.
    + rewrite header_items_get, Hvd. reflexivity.
    + simpl. intros H; repeat (destruct H as [H|H]; [discriminate H|]); exact H.
Qed.

Lemma header_entry_of_field_witness :
  to_headers forward_call = Ok forward_headers
  /\ dict_get forward_headers "axon_port" = None
  /\ dict_get forward_headers "dendrite_port" = Some (VStr "8091").
Proof.
  split; [reflexivity|].
  apply (@header_entry_of_field IntegralFloat forward_call forward_headers
           (@TerminalInfo_default IntegralFloat) forward_dendrite "port"
           VNone (VInt 8091)); reflexivity.
Defined.

(** X3.  The wire format.  In a header map written by [to_headers] the
    keys are pairwise distinct and each is [name], [timeout],
    [axon_<field>] or [dendrite_<field>]; every value is a text; there are
    at most 22 entries. *)
Theorem header_map_well_formed (PF : PyFloat) (self : Synapse)
    (h : dict scalar) :
  to_headers self = Ok h ->
  NoDup (dict_keys h)
  /\ incl (dict_keys h) wire_keys
  /\ Forall (fun kv => exists s, snd kv = VStr s) h
  /\ (List.length h <= 22)%nat.
Proof.
  intros Hh. destruct (to_headers_Ok_inv _ Hh) as [a [d [Ha Hd]]].
  rewrite (to_headers_eq self Ha Hd) in Hh. injection Hh as <-.
  assert (Hincl : incl (dict_keys (header_map (timeout self) a d)) wire_keys).
  { unfold header_map, wire_keys, dict_keys. rewrite !map_app.
    apply incl_app_app; [apply incl_refl|].
    apply incl_app_app; apply header_items_keys. }
  assert (Hnd : NoDup (dict_keys (header_map (timeout self) a d))).
  { unfold header_map, dict_keys. rewrite !map_app.
    apply NoDup_app.
    - apply distinct_NoDup. reflexivity.
    - apply NoDup_app; try (apply header_items_NoDup; reflexivity).
      intros k Hin Hin'. apply header_items_keys in Hin, Hin'.
      refine (@disjoint_spec _ _ k _ Hin Hin'). reflexivity.
    - intros k Hin Hin'. apply in_app_or in Hin'.
      destruct Hin' as [Hin'|Hin']; apply header_items_keys in Hin';
        refine (@disjoint_spec _ _ k _ Hin Hin'); reflexivity. }
  repeat split; try assumption.
  - unfold header_map. repeat constructor; try (eexists; reflexivity).
    apply Forall_app; split; unfold header_items; apply Forall_forall;
      intros kv Hin; apply in_map_iff in Hin as [x [<- _]];
      eexists; reflexivity.
  - rewrite <- (length_map fst).
    exact (NoDup_incl_length Hnd Hincl).
Qed.

Lemma header_map_well_formed_witness :
  to_headers forward_call = Ok forward_headers
  /\ NoDup (dict_keys forward_headers)
  /\ incl (dict_keys forward_headers) wire_keys
  /\ Forall (fun kv => exists s, snd kv = VStr s) forward_headers
  /\ (List.length forward_headers <= 22)%nat.
Proof.
  split; [reflexivity|].
  apply (@header_map_well_formed IntegralFloat forward_call). reflexivity.
Defined.

(** ** Decoding *)

Lemma same_envelope_refl (PF : PyFloat) (s : Synapse) : same_envelope s s.
Proof. unfold same_envelope; tauto. Qed.

Lemma same_envelope_trans (PF : PyFloat) (s1 s2 s3 : Synapse) :
  same_envelope s1 s2 -> same_envelope s2 s3 -> same_envelope s1 s3.
Proof.
  unfold same_envelope.
  intros [H1 [H2 [H3 [H4 H5]]]] [K1 [K2 [K3 [K4 K5]]]].
  repeat split; try congruence; auto.
Qed.

Lemma setattr_axon_Ok (PF : PyFloat) (s s' : Synapse) (k : string) (v : scalar) :
  setattr_axon s k v = Ok s' -> exists t, s' = with_axon (Some t) s.
Proof.
  unfold setattr_axon. destruct (axon s) as [a|]; [|discriminate].
  destruct (TerminalInfo_setattr a k v) as [t|]; [|discriminate].
  intros [= <-]. exists t. reflexivity.
Qed.

Lemma setattr_dendrite_Ok (PF : PyFloat) (s s' : Synapse) (k : string)
    (v : scalar) :
  setattr_dendrite s k v = Ok s' -> exists t, s' = with_dendrite (Some t) s.
Proof.
  unfold setattr_dendrite. destruct (dendrite s) as [d|]; [|discriminate].
  destruct (TerminalInfo_setattr d k v) as [t|]; [|discriminate].
  intros [= <-]. exists t. reflexivity.
Qed.

Lemma step_same_envelope (PF : PyFloat) (s : Synapse) (kv : string * scalar) :
  same_envelope s (from_headers_step s kv).
Proof.
  unfold from_headers_step.
  assert (Ha : same_envelope s (snd (try_axon (fst kv) (snd kv) s))).
  { unfold try_axon. destruct (index1 _); [|apply same_envelope_refl].
    destruct (setattr_axon s a (snd kv)) as [s'|] eqn:E;
      [|apply same_envelope_refl].
    apply setattr_axon_Ok in E as [t ->]. cbn [snd].
    unfold same_envelope; cbn; repeat split; auto; discriminate. }
  destruct (try_axon (fst kv) (snd kv) s) as [k1 s1]. cbn [snd] in Ha.
  apply (same_envelope_trans Ha).
  unfold try_dendrite. destruct (index1 _); [|apply same_envelope_refl].
  destruct (setattr_dendrite s1 a (snd kv)) as [s'|] eqn:E;
    [|apply same_envelope_refl].
  apply setattr_dendrite_Ok in E as [t ->].
  unfold same_envelope; cbn; repeat split; auto; discriminate.
Qed.

Lemma fold_same_envelope (PF : PyFloat) (h : dict scalar) (s : Synapse) :
  same_envelope s (fold_left from_headers_step h s).
Proof.
  revert s; induction h as [|kv h IH]; intros s; cbn [fold_left].
  - apply same_envelope_refl.
  - exact (same_envelope_trans (step_same_envelope s kv) (IH _)).
Qed.

Lemma from_headers_shape (PF : PyFloat) (h : dict scalar) (s : Synapse) :
  from_headers h = Ok s ->
  class_name s = "Synapse"
  /\ name s = decoded_name (get_or_none h "name")
  /\ (exists f, py_float (get_or_none h "timeout") = Ok f
                /\ timeout s = Some f)
  /\ axon s <> None /\ dendrite s <> None.
Proof.
  rewrite from_headers_eq.
  destruct (py_float (get_or_none h "timeout")) as [f|]; [|discriminate].
  cbn [bind]. intros [= <-].
  destruct (fold_same_envelope h
              (decoded_start f (decoded_name (get_or_none h "name"))))
    as [H1 [H2 [H3 [H4 H5]]]].
  repeat split; try assumption.
  - exists f. split; [reflexivity | exact H3].
  - apply H4. discriminate.
  - apply H5. discriminate.
Qed.

(** X4.  Whatever the header map holds, a synapse that [from_headers]
    returns is of class [Synapse], is named by the [name] entry taken as
    it is ([None] without one), has the timeout [float] reads in the
    [timeout] entry, and has both its axon and its dendrite: no entry can
    remove or replace the class, the name, the timeout or a terminal. *)
Theorem decoded_synapse_shape (PF : PyFloat) (h : dict scalar) (s : Synapse) :
  from_headers h = Ok s ->
  class_name s = "Synapse"
  /\ name s = decoded_name (get_or_none h "name")
  /\ (exists f, py_float (get_or_none h "timeout") = Ok f
                /\ timeout s = Some f)
  /\ axon s <> None /\ dendrite s <> None.
Proof. apply from_headers_shape. Qed.

Lemma decoded_synapse_shape_witness :
  from_headers forward_headers
  = Ok {| class_name := "Synapse"; name := Some "Synapse";
          timeout := Some (12 : @pyfloat IntegralFloat);
          dendrite := Some forward_dendrite;
          axon := Some (@TerminalInfo_default IntegralFloat) |}
  /\ exists f, py_float (get_or_none forward_headers "timeout") = Ok f
               /\ Some (12 : @pyfloat IntegralFloat) = Some f.
Proof.
  split; [reflexivity|].
  apply (@decoded_synapse_shape IntegralFloat forward_headers
           {| class_name := "Synapse"; name := Some "Synapse";
              timeout := Some (12 : @pyfloat IntegralFloat);
              dendrite := Some forward_dendrite;
              axon := Some (@TerminalInfo_default IntegralFloat) |}).
  reflexivity.
Defined.

(** X5.  Decoding fails only on the timeout: when [float] reads the
    [timeout] entry, [from_headers] returns a synapse whatever the other
    entries are; when it does not, [from_headers] raises the very
    exception [float] raised. *)
Theorem from_headers_fails_only_on_timeout (PF : PyFloat) (h : dict scalar) :
  match py_float (get_or_none h "timeout") with
  | Ok _ => exists s, from_headers h = Ok s
  | Raise e => from_headers h = Raise e
  end.
Proof.
  rewrite from_headers_eq.
  destruct (py_float (get_or_none h "timeout")); cbn [bind];
    [eexists|]; reflexivity.
Qed.

(** X6.  A synapse whose timeout is [None] is encoded with the text
    ["None"] under [timeout], and that header map does not decode: with a
    [float] that rejects ["None"], [from_headers] raises [ValueError]. *)
Theorem unset_timeout_does_not_decode (PF : PyFloat) (self : Synapse)
    (h : dict scalar) :
  float_of_str "None" = None ->
  timeout self = None -> to_headers self = Ok h ->
  dict_get h "timeout" = Some (VStr "None")
  /\ from_headers h = Raise ValueError.
Proof.
  intros Hnone Ht Hh. destruct (to_headers_Ok_inv _ Hh) as [a [d [Ha Hd]]].
  rewrite (to_headers_eq self Ha Hd), Ht in Hh. injection Hh as <-.
  split; [reflexivity|].
  rewrite from_headers_eq.
  change (get_or_none (header_map None a d) "timeout") with (@VStr PF "None").
  cbn [py_float]. rewrite Hnone. reflexivity.
Qed.

Lemma unset_timeout_does_not_decode_witness :
  @float_of_str IntegralFloat "None" = None
  /\ timeout (with_timeout None forward_call) = None
  /\ (h <- to_headers (with_timeout None forward_call) ;; from_headers h)
     = Raise ValueError.
Proof.
  split; [reflexivity|]. split; [reflexivity|].
  destruct (to_headers (with_timeout None forward_call)) as [h|e] eqn:E;
    [|discriminate E].
  exact (proj2 (@unset_timeout_does_not_decode IntegralFloat
                  (with_timeout None forward_call) h
                  eq_refl eq_refl E)).
Defined.

(** X7.  An entry whose key contains neither ["axon_"] nor ["dendrite_"],
    and is neither [timeout] nor [name], does not change what
    [from_headers] returns, wherever it stands in the header map and
    whatever its value. *)
Theorem key_without_prefix_ignored (PF : PyFloat)
    (h1 h2 : dict scalar) (k : string) (v : scalar) :
  contains "axon_" k = false -> contains "dendrite_" k = false ->
  k <> "timeout" -> k <> "name" ->
  from_headers (h1 ++ (k, v) :: h2)%list = from_headers (h1 ++ h2)%list.
Proof.
  intros Ha Hd Ht Hn. apply from_headers_skip.
  - apply String.eqb_neq. exact Ht.
  - apply String.eqb_neq. exact Hn.
  - intros synapse.
    apply step_no_separator; apply index1_split_without; assumption.
Qed.

Lemma key_without_prefix_ignored_witness :
  contains "axon_" "foo_bar" = false
  /\ contains "dendrite_" "foo_bar" = false
  /\ @from_headers IntegralFloat
       ([("timeout", VStr "12.0")]
        ++ ("foo_bar", VStr "baz") :: [("axon_ip", VStr "1.2.3.4")])%list
     = from_headers
         ([("timeout", VStr "12.0")] ++ [("axon_ip", VStr "1.2.3.4")])%list.
Proof.
  split; [reflexivity|]. split; [reflexivity|].
  apply (@key_without_prefix_ignored IntegralFloat);
    [reflexivity | reflexivity | discriminate | discriminate].
Defined.

(** X8.  An entry [axon_<field>] changes nothing but the axon and an
    entry [dendrite_<field>] nothing but the dendrite, whatever the
    value. *)
Theorem prefixed_entry_touches_one_terminal (PF : PyFloat)
    (synapse : Synapse) (k : string) (v : scalar) :
  In k TerminalInfo_fields ->
  dendrite (from_headers_step synapse ("axon_" ++ k, v)) = dendrite synapse
  /\ axon (from_headers_step synapse ("dendrite_" ++ k, v)) = axon synapse.
Proof.
  intros Hk. rewrite (step_axon_field _ _ Hk), (step_dendrite_field _ _ Hk).
  split.
  - destruct (setattr_axon synapse k v) eqn:E; [|reflexivity].
    apply setattr_axon_Ok in E as [t ->]. reflexivity.
  - destruct (setattr_dendrite synapse k v) eqn:E; [|reflexivity].
    apply setattr_dendrite_Ok in E as [t ->]. reflexivity.
Qed.

Lemma prefixed_entry_touches_one_terminal_witness :
  In "port" TerminalInfo_fields
  /\ dendrite (from_headers_step forward_call ("axon_" ++ "port", VStr "80"))
     = dendrite forward_call
  /\ axon (from_headers_step forward_call ("dendrite_" ++ "port", VStr "80"))
     = axon forward_call.
Proof.
  split; [simpl; tauto|].
  apply (@prefixed_entry_touches_one_terminal IntegralFloat forward_call
           "port" (VStr "80")). simpl; tauto.
Defined.

(** X9.  What was decoded survives another encoding and decoding: for a
    synapse returned by [from_headers], [to_headers] succeeds, and
    decoding its header map gives the same synapse with the name
    ["Synapse"]. *)
Theorem decoded_synapse_reencodes (PF : PyFloat)
    (Hrt : forall f : pyfloat, float_of_str (str_of_float f) = Some f)
    (h : dict scalar) (s : Synapse) :
  from_headers h = Ok s ->
  (h' <- to_headers s ;; from_headers h') = Ok (with_name (Some "Synapse") s).
Proof.
  intros Hs.
  destruct (from_headers_shape _ Hs) as [Hc [_ [[f [_ Ht]] [Ha Hd]]]].
  clear Hs. destruct s as [c n t d a].
  cbn [class_name timeout axon dendrite] in Hc, Ht, Ha, Hd.
  destruct a as [a|]; [|congruence]. destruct d as [d|]; [|congruence].
  subst c t.
  rewrite (@to_headers_eq _
             {| class_name := "Synapse"; name := n; timeout := Some f;
                dendrite := Some d; axon := Some a |} a d eq_refl eq_refl).
  cbn [bind timeout].
  rewrite (from_headers_header_map Hrt). reflexivity.
Qed.

Lemma decoded_synapse_reencodes_witness :
  (forall z : Z,
     @float_of_str IntegralFloat (@str_of_float IntegralFloat z) = Some z)
  /\ @from_headers IntegralFloat
       [("timeout", VStr "12.0"); ("name", VStr "Forward");
        ("foo_axon_port", VStr "80")]
     = Ok (with_axon (Some (set_port (Some 80) TerminalInfo_default))
             (decoded_start (12 : @pyfloat IntegralFloat) (Some "Forward")))
  /\ (h' <- to_headers
              (with_axon (Some (set_port (Some 80) TerminalInfo_default))
                 (decoded_start (12 : @pyfloat IntegralFloat) (Some "Forward")))
      ;; from_headers h')
     = Ok (with_axon (Some (set_port (Some 80) TerminalInfo_default))
             (decoded_start (12 : @pyfloat IntegralFloat) (Some "Synapse"))).
Proof.
  split; [exact integral_round_trip|]. split; [reflexivity|].
  apply (@decoded_synapse_reencodes IntegralFloat integral_round_trip
           [("timeout", VStr "12.0"); ("name", VStr "Forward");
            ("foo_axon_port", VStr "80")]).
  reflexivity.
Defined.

(** ** Fields of a terminal *)

Lemma dict_get_set_other {V : Type} (d : dict V) (k k' : string) (v : V) :
  k <> k' -> dict_get (dict_set d k v) k' = dict_get d k'.
Proof.
  intros Hk. induction d as [|[k0 v0] d IH]; simpl.
  - destruct (String.eqb_spec k k'); [contradiction | reflexivity].
  - destruct (String.eqb_spec k0 k) as [->|_]; simpl.
    + destruct (String.eqb_spec k k'); [contradiction | reflexivity].
    + rewrite IH. reflexivity.
Qed.

Lemma setattr_dict (PF : PyFloat) (t t' : TerminalInfo) (k : string)
    (v : scalar) :
  TerminalInfo_setattr t k v = Ok t' ->
  exists x, TerminalInfo_dict t' = dict_set (TerminalInfo_dict t) k x.
Proof.
  unfold TerminalInfo_setattr.
  repeat match goal with
         | |- context [String.eqb k ?f] =>
             destruct (String.eqb_spec k f) as [->|_];
             [destruct (assign _ _) as [x|]; cbn [bind];
              [intros [= <-]; eexists; reflexivity | discriminate] | ]
         end.
  discriminate.
Qed.


(** X12.  A successful assignment changes the assigned field only: every
    other field reads as before. *)
Theorem setattr_changes_one_field (PF : PyFloat) (t t' : TerminalInfo)
    (k k' : string) (v : scalar) :
  TerminalInfo_setattr t k v = Ok t' -> k <> k' ->
  dict_get (TerminalInfo_dict t') k' = dict_get (TerminalInfo_dict t) k'.
Proof.
  intros H Hk. destruct (setattr_dict _ _ _ H) as [x ->].
  apply dict_get_set_other. exact Hk.
Qed.

Lemma setattr_changes_one_field_witness :
  TerminalInfo_setattr forward_dendrite "port" (VStr "80")
  = Ok (set_port (Some 80) forward_dendrite)
  /\ dict_get (TerminalInfo_dict (set_port (Some 80) forward_dendrite)) "nonce"
     = dict_get (TerminalInfo_dict forward_dendrite) "nonce".
Proof.
  split; [reflexivity|].
  apply (@setattr_changes_one_field IntegralFloat forward_dendrite
           (set_port (Some 80) forward_dendrite) "port" "nonce" (VStr "80"));
    [reflexivity | discriminate].
Defined.

(** X13.  A model built from its own [dict()] is the model again: for a
    terminal, field for field; for a synapse, with the timeout and both
    terminals kept and the name set to the name of the class that is
    built. *)
Theorem model_rebuilt_from_dict (PF : PyFloat) :
  (forall t : TerminalInfo, TerminalInfo_init (TerminalInfo_dict t) = Ok t)
  /\ (forall (cls : string) (self : Synapse),
        Synapse_init cls (Synapse_dict self) =
        Ok {| class_name := cls; name := Some cls; timeout := timeout self;
              dendrite := dendrite self; axon := axon self |}).
Proof.
  split; [exact TerminalInfo_init_dict | exact Synapse_init_dict].
Qed.

(** X14.  [cast_int] returns [None] or an [int] and [cast_float] returns
    [None] or a [float], never a text; applied to what they return they
    return it unchanged. *)
Theorem casts_idempotent (PF : PyFloat) (v v' : scalar) :
  (cast_int v = Ok v' ->
   (v' = VNone \/ exists z, v' = VInt z) /\ cast_int v' = Ok v')
  /\ (cast_float v = Ok v' ->
      (v' = VNone \/ exists f, v' = VFloat f) /\ cast_float v' = Ok v').
Proof.
  split; unfold cast_int, cast_float; destruct v; cbn [not_none];
    try (intros [= <-]; split; [left; reflexivity | reflexivity]);
    match goal with
    | |- (_ <- ?r ;; _) = _ -> _ => destruct r; cbn [bind]
    end;
    try discriminate; intros [= <-]; (split; [right; eexists|]; reflexivity).
Qed.

Lemma casts_idempotent_witness :
  @cast_int IntegralFloat (VStr " 8_091 ") = Ok (VInt 8091)
  /\ @cast_int IntegralFloat (VInt 8091) = Ok (VInt 8091).
Proof.
  split; [reflexivity|].
  exact (proj2 (proj1 (@casts_idempotent IntegralFloat (VStr " 8_091 ")
                         (VInt 8091)) eq_refl)).
Defined.

(** X15.  The constructor of a terminal ignores a keyword that names no
    field. *)
Theorem unknown_keyword_ignored (PF : PyFloat) (kwargs : dict scalar)
    (k : string) (v : scalar) :
  ~ In k TerminalInfo_fields ->
  TerminalInfo_init (dict_set kwargs k v) = TerminalInfo_init kwargs.
Proof.
  intros H.
  assert (Hne : forall f, In f TerminalInfo_fields -> k <> f)
    by (intros f Hf ->; exact (H Hf)).
  unfold TerminalInfo_init, init_field.
  rewrite !(@dict_get_set_other _ kwargs k) by (apply Hne; simpl; tauto).
  reflexivity.
Qed.

Lemma unknown_keyword_ignored_witness :
  ~ In "axon_port" TerminalInfo_fields
  /\ @TerminalInfo_init IntegralFloat
       (dict_set [("port", VStr "80")] "axon_port" (VStr "81"))
     = TerminalInfo_init [("port", VStr "80")].
Proof.
  assert (H : ~ In "axon_port" TerminalInfo_fields).
  { simpl. intros H; repeat (destruct H as [H|H]; [discriminate H|]); exact H. }
  split; [exact H|].
  exact (@unknown_keyword_ignored IntegralFloat [("port", VStr "80")]
           "axon_port" (VStr "81") H).
Defined.

(** * Properties of the command-line helpers *)

Import cli_utils.

Lemma validate_password_outcome (colored : string -> option string -> string)
    (policy_failures : string -> nat) (p : string) (c : console) :
  (exists b, fst (validate_password colored policy_failures p c) = Return b)
  \/ fst (validate_password colored policy_failures p c) = EOFError.
Proof.
  unfold validate_password.
  destruct (String.eqb p ""); [left; exists false; reflexivity|].
  destruct (0 <? policy_failures p)%nat; [left; exists false; reflexivity|].
  unfold io_bind, getpass, read.
  destruct (answers c) as [|a rest]; [right; reflexivity|].
  left. destruct (String.eqb p a); eexists; reflexivity.
Qed.

Lemma validate_password_answers (colored : string -> option string -> string)
    (policy_failures : string -> nat) (p : string) (c : console) :
  (List.length (answers (snd (validate_password colored policy_failures p c)))
   <= List.length (answers c))%nat.
Proof.
  unfold validate_password.
  destruct (String.eqb p ""); [apply Nat.le_refl|].
  destruct (0 <? policy_failures p)%nat; [apply Nat.le_refl|].
  unfold io_bind, getpass, read.
  destruct (answers c) as [|a rest] eqn:E; cbn; [rewrite E; apply Nat.le_refl|].
  destruct (String.eqb p a); cbn; apply Nat.le_succ_diag_r.
Qed.

Lemma validate_password_true (colored : string -> option string -> string)
    (policy_failures : string -> nat) (p : string) (c c' : console) :
  validate_password colored policy_failures p c = (Return true, c')
  <-> (p <> "" /\ policy_failures p = 0%nat
       /\ answers c = p :: answers c'
       /\ shown c' = (shown c ++ [AskedSecret "Retype your password: "])%list).
Proof.
  unfold validate_password. split.
  - destruct (String.eqb_spec p "") as [->|Hp]; [discriminate|].
    destruct (policy_failures p) as [|n]; [|discriminate].
    cbn [Nat.ltb Nat.leb]. unfold io_bind, getpass, read.
    destruct (answers c) as [|a rest]; [discriminate|].
    destruct (String.eqb_spec p a) as [<-|Hpa]; cbn; [|discriminate].
    intros [= <-]. cbn. repeat split; assumption || reflexivity.
  - intros [Hp [Hpol [Hans Hshown]]].
    destruct (String.eqb_spec p "") as [->|_]; [congruence|].
    rewrite Hpol. cbn [Nat.ltb Nat.leb]. unfold io_bind, getpass, read.
    rewrite Hans, String.eqb_refl. cbn. unfold ret.
    destruct c' as [ans' sh']. cbn in *. rewrite Hshown. reflexivity.
Qed.

(** X16.  [validate_password] says yes exactly when the password is not
    empty, fails no test of the policy, and the next line typed repeats
    it; then it has read that one line and printed nothing. *)
Theorem validate_password_accepts (colored : string -> option string -> string)
    (policy_failures : string -> nat) (p : string) (c c' : console) :
  validate_password colored policy_failures p c = (Return true, c')
  <-> (p <> "" /\ policy_failures p = 0%nat
       /\ answers c = p :: answers c'
       /\ shown c' = (shown c ++ [AskedSecret "Retype your password: "])%list).
Proof. apply validate_password_true. Qed.

Lemma validate_password_accepts_witness :
  validate_password (fun text _ => text)
    (fun p => if (String.length p <? 8)%nat then 1%nat else 0%nat)
    "correct horse"
    {| answers := ["correct horse"; "next"]; shown := [] |}
  = (Return true,
     {| answers := ["next"];
        shown := [AskedSecret "Retype your password: "] |}).
Proof.
  apply (proj2 (@validate_password_accepts (fun text _ => text)
                  (fun p => if (String.length p <? 8)%nat then 1%nat else 0%nat)
                  "correct horse"
                  {| answers := ["correct horse"; "next"]; shown := [] |}
                  {| answers := ["next"];
                     shown := [AskedSecret "Retype your password: "] |})).
  repeat split; try reflexivity. discriminate.
Defined.

Lemma validate_password_false
    (colored : string -> option string -> string)
    (policy_failures : string -> nat) (p : string) (c : console) :
  turned_down policy_failures p = true ->
  fst (validate_password colored policy_failures p c) = Return false
  /\ answers (snd (validate_password colored policy_failures p c)) = answers c.
Proof.
  unfold turned_down, validate_password. intros H.
  destruct (String.eqb p ""); [split; reflexivity|].
  cbn [orb] in H. rewrite H. split; reflexivity.
Qed.

(** X17.  A password that is empty or fails the policy is turned down
    without a second prompt: [validate_password] returns [False] and
    reads nothing. *)
Theorem validate_password_turns_down
    (colored : string -> option string -> string)
    (policy_failures : string -> nat) (p : string) (c : console) :
  turned_down policy_failures p = true ->
  fst (validate_password colored policy_failures p c) = Return false
  /\ answers (snd (validate_password colored policy_failures p c)) = answers c.
Proof. apply validate_password_false. Qed.

Lemma validate_password_turns_down_witness :
  turned_down (fun p => if (String.length p <? 8)%nat then 1%nat else 0%nat)
    "short" = true
  /\ fst (validate_password (fun text _ => text)
            (fun p => if (String.length p <? 8)%nat then 1%nat else 0%nat)
            "short" {| answers := ["short"]; shown := [] |}) = Return false
  /\ answers (snd (validate_password (fun text _ => text)
            (fun p => if (String.length p <? 8)%nat then 1%nat else 0%nat)
            "short" {| answers := ["short"]; shown := [] |})) = ["short"].
Proof.
  split; [reflexivity|].
  apply (@validate_password_turns_down (fun text _ => text)
           (fun p => if (String.length p <? 8)%nat then 1%nat else 0%nat)
           "short" {| answers := ["short"]; shown := [] |}).
  reflexivity.
Defined.

Lemma input_password_loop_step (colored : string -> option string -> string)
    (policy_failures : string -> nat) (fuel : nat) (c : console) :
  input_password_loop colored policy_failures (S fuel) c =
  match answers c with
  | [] => (EOFError,
           show (AskedSecret "Specify password for key encryption: ") c)
  | a :: rest =>
      match validate_password colored policy_failures a
              {| answers := rest;
                 shown := (shown c ++ [AskedSecret
                             "Specify password for key encryption: "])%list |}
      with
      | (Return true, c2) => (Return a, c2)
      | (Return false, c2) =>
          input_password_loop colored policy_failures fuel c2
      | (SystemExit, c2) => (SystemExit, c2)
      | (EOFError, c2) => (EOFError, c2)
      | (OutOfFuel, c2) => (OutOfFuel, c2)
      end
  end.
Proof.
  cbn [input_password_loop]. unfold io_bind, getpass, read.
  destruct (answers c) as [|a rest]; [reflexivity|].
  destruct (validate_password _ _ _ _) as [[[|]| | |] c2]; reflexivity.
Qed.

Lemma input_password_loop_fuel (colored : string -> option string -> string)
    (policy_failures : string -> nat) (fuel : nat) (c : console) :
  (List.length (answers c) < fuel)%nat ->
  fst (input_password_loop colored policy_failures fuel c) <> OutOfFuel.
Proof.
  revert c; induction fuel as [|fuel IH]; intros c Hlen; [inversion Hlen|].
  rewrite input_password_loop_step.
  destruct (answers c) as [|a rest] eqn:E; [discriminate|].
  set (c1 := {| answers := rest; shown := _ |}).
  pose proof (validate_password_outcome colored policy_failures a c1) as Ho.
  pose proof (validate_password_answers colored policy_failures a c1) as Hl.
  destruct (validate_password colored policy_failures a c1) as [o c2].
  cbn [fst snd] in Ho, Hl.
  destruct Ho as [[b ->] | ->]; [|discriminate].
  destruct b; [discriminate|].
  apply IH. subst c1. cbn [answers List.length] in Hl, Hlen. lia.
Qed.

(** X18.  On any finite input [input_password] comes to an end: it
    returns a password or runs into the end of the input; the bound of
    the modelled loop is never what stops it, and it never quits. *)
Theorem input_password_ends (colored : string -> option string -> string)
    (policy_failures : string -> nat) (c : console) :
  (exists p, fst (input_password colored policy_failures c) = Return p)
  \/ fst (input_password colored policy_failures c) = EOFError.
Proof.
  assert (H : forall fuel c0,
             fst (input_password_loop colored policy_failures fuel c0)
             <> OutOfFuel ->
             (exists p, fst (input_password_loop colored policy_failures
                               fuel c0) = Return p)
             \/ fst (input_password_loop colored policy_failures fuel c0)
                = EOFError).
  { induction fuel as [|fuel IH]; intros c0; [intros H; elim H; reflexivity|].
    rewrite input_password_loop_step.
    destruct (answers c0) as [|a rest]; [right; reflexivity|].
    set (c1 := {| answers := rest; shown := _ |}).
    pose proof (validate_password_outcome colored policy_failures a c1) as Ho.
    destruct (validate_password colored policy_failures a c1) as [o c2].
    cbn [fst] in Ho. destruct Ho as [[b ->] | ->]; [|right; reflexivity].
    destruct b; [left; exists a; reflexivity | apply IH]. }
  apply H. apply input_password_loop_fuel. apply Nat.lt_succ_diag_r.
Qed.

Lemma validate_password_suffix (colored : string -> option string -> string)
    (policy_failures : string -> nat) (p : string) (c : console) :
  exists pre,
    answers c
    = (pre ++ answers (snd (validate_password colored policy_failures p c)))%list.
Proof.
  unfold validate_password.
  destruct (String.eqb p ""); [exists []; reflexivity|].
  destruct (0 <? policy_failures p)%nat; [exists []; reflexivity|].
  unfold io_bind, getpass, read.
  destruct (answers c) as [|a rest] eqn:E; cbn; [exists []; rewrite E; reflexivity|].
  exists [a]. destruct (String.eqb p a); reflexivity.
Qed.

Lemma input_password_loop_sound (colored : string -> option string -> string)
    (policy_failures : string -> nat) (fuel : nat) (c c' : console)
    (p : string) :
  input_password_loop colored policy_failures fuel c = (Return p, c') ->
  p <> "" /\ policy_failures p = 0%nat
  /\ exists before, answers c = (before ++ p :: p :: answers c')%list.
Proof.
  revert c; induction fuel as [|fuel IH]; intros c; [discriminate|].
  rewrite input_password_loop_step.
  destruct (answers c) as [|a rest]; [discriminate|].
  set (c1 := {| answers := rest; shown := _ |}).
  destruct (validate_password_suffix colored policy_failures a c1) as [pre Hpre].
  destruct (validate_password colored policy_failures a c1)
    as [[[|]| | |] c2] eqn:E; try discriminate.
  - intros [= -> ->].
    apply validate_password_true in E as [Hp [Hpol [Hans _]]].
    repeat split; try assumption. exists []. cbn [answers c1] in Hans.
    subst c1. cbn in Hans. rewrite Hans. reflexivity.
  - intros H. destruct (IH _ H) as [Hp [Hpol [before Hb]]].
    repeat split; try assumption.
    exists (a :: pre ++ before)%list. cbn [snd] in Hpre.
    subst c1. cbn [answers] in Hpre. rewrite Hpre, Hb.
    cbn [app]. rewrite <- app_assoc. reflexivity.
Qed.

(** X19.  A password that [input_password] returns is not empty, fails no
    test of the policy, and was typed twice in a row; everything typed
    before it has been read and what was typed after it is left. *)
Theorem input_password_sound (colored : string -> option string -> string)
    (policy_failures : string -> nat) (c c' : console) (p : string) :
  input_password colored policy_failures c = (Return p, c') ->
  p <> "" /\ policy_failures p = 0%nat
  /\ exists before, answers c = (before ++ p :: p :: answers c')%list.
Proof. unfold input_password. apply input_password_loop_sound. Qed.

Lemma input_password_sound_witness :
  input_password (fun text _ => text)
    (fun p => if (String.length p <? 8)%nat then 1%nat else 0%nat)
    {| answers := ["short"; "correct horse"; "typo"; "correct horse";
                   "correct horse"; "left"];
       shown := [] |}
  = (Return "correct horse",
     {| answers := ["left"];
        shown := [ AskedSecret "Specify password for key encryption: ";
                   Printed "Password not strong enough. Try increasing the length of the password or the password comlexity";
                   AskedSecret "Specify password for key encryption: ";
                   AskedSecret "Retype your password: ";
                   Printed "Passwords do not match";
                   AskedSecret "Specify password for key encryption: ";
                   AskedSecret "Retype your password: " ] |})
  /\ exists before,
       ["short"; "correct horse"; "typo"; "correct horse"; "correct horse";
        "left"]
       = (before ++ "correct horse" :: "correct horse" :: ["left"])%list.
Proof.
  split; [reflexivity|].
  exact (proj2 (proj2 (@input_password_sound (fun text _ => text)
            (fun p => if (String.length p <? 8)%nat then 1%nat else 0%nat)
            {| answers := ["short"; "correct horse"; "typo"; "correct horse";
                           "correct horse"; "left"];
               shown := [] |}
            {| answers := ["left"];
               shown := [ AskedSecret "Specify password for key encryption: ";
                   Printed "Password not strong enough. Try increasing the length of the password or the password comlexity";
                   AskedSecret "Specify password for key encryption: ";
                   AskedSecret "Retype your password: ";
                   Printed "Passwords do not match";
                   AskedSecret "Specify password for key encryption: ";
                   AskedSecret "Retype your password: " ] |}
            "correct horse" eq_refl))).
Defined.

Lemma input_password_loop_first (colored : string -> option string -> string)
    (policy_failures : string -> nat) (junk : list string) (p : string)
    (rest : list string) :
  Forall (fun q => turned_down policy_failures q = true) junk ->
  turned_down policy_failures p = false ->
  forall (fuel : nat) (c : console),
    (List.length junk < fuel)%nat ->
    answers c = (junk ++ p :: p :: rest)%list ->
    fst (input_password_loop colored policy_failures fuel c) = Return p
    /\ answers (snd (input_password_loop colored policy_failures fuel c)) = rest.
Proof.
  intros Hjunk Hp. induction Hjunk as [|q junk Hq _ IH]; intros fuel c Hf Hc;
    (destruct fuel as [|fuel]; [inversion Hf|]);
    rewrite input_password_loop_step, Hc; cbn [app].
  - unfold turned_down in Hp. apply orb_false_iff in Hp as [Hp1 Hp2].
    apply String.eqb_neq in Hp1. apply Nat.ltb_ge in Hp2.
    rewrite (proj2 (@validate_password_true colored policy_failures p
               {| answers := p :: rest;
                  shown := (shown c ++ [AskedSecret
                              "Specify password for key encryption: "])%list |}
               {| answers := rest;
                  shown := ((shown c ++ [AskedSecret
                               "Specify password for key encryption: "])
                            ++ [AskedSecret "Retype your password: "])%list |}));
      [split; reflexivity|].
    repeat split; try reflexivity; [exact Hp1 | lia].
  - set (c1 := {| answers := (junk ++ p :: p :: rest)%list; shown := _ |}).
    destruct (@validate_password_false colored policy_failures q c1 Hq)
      as [Ho Ha].
    destruct (validate_password colored policy_failures q c1) as [o c2].
    cbn [fst snd] in Ho, Ha. subst o.
    apply IH; [cbn [List.length] in Hf; lia | exact Ha].
Qed.

(** X20.  [input_password] returns the first password that is neither
    empty nor weak and is typed twice in a row: lines that are empty or
    fail the policy before it are passed over one by one, and the lines
    after it are left unread. *)
Theorem input_password_first_accepted
    (colored : string -> option string -> string)
    (policy_failures : string -> nat) (junk : list string) (p : string)
    (rest : list string) (c : console) :
  Forall (fun q => turned_down policy_failures q = true) junk ->
  turned_down policy_failures p = false ->
  answers c = (junk ++ p :: p :: rest)%list ->
  fst (input_password colored policy_failures c) = Return p
  /\ answers (snd (input_password colored policy_failures c)) = rest.
Proof.
  intros Hjunk Hp Hc. unfold input_password.
  apply (@input_password_loop_first colored policy_failures junk p rest
           Hjunk Hp); [|exact Hc].
  rewrite Hc, length_app. cbn [List.length]. lia.
Qed.

Lemma input_password_first_accepted_witness :
  Forall (fun q =>
            turned_down
              (fun p => if (String.length p <? 8)%nat then 1%nat else 0%nat) q
            = true) [""; "short"]
  /\ fst (input_password (fun text _ => text)
            (fun p => if (String.length p <? 8)%nat then 1%nat else 0%nat)
            {| answers := [""; "short"; "correct horse"; "correct horse";
                           "left"];
               shown := [] |}) = Return "correct horse"
  /\ answers (snd (input_password (fun text _ => text)
            (fun p => if (String.length p <? 8)%nat then 1%nat else 0%nat)
            {| answers := [""; "short"; "correct horse"; "correct horse";
                           "left"];
               shown := [] |})) = ["left"].
Proof.
  assert (H : Forall (fun q =>
            turned_down
              (fun p => if (String.length p <? 8)%nat then 1%nat else 0%nat) q
            = true) [""; "short"]) by (repeat constructor).
  split; [exact H|].
  apply (@input_password_first_accepted (fun text _ => text)
           (fun p => if (String.length p <? 8)%nat then 1%nat else 0%nat)
           [""; "short"] "correct horse" ["left"] _ H); reflexivity.
Defined.

Lemma may_overwrite_eq (file : string) (c : console) :
  may_overwrite file c =
  match answers c with
  | [] =>
      (EOFError,
       show (Asked ("File " ++ file ++ " already exists. Overwrite ? (y/N) ")) c)
  | a :: rest =>
      (Return (String.eqb a "y"),
       {| answers := rest;
          shown := (shown c ++ [Asked ("File " ++ file
                      ++ " already exists. Overwrite ? (y/N) ")])%list |})
  end.
Proof.
  unfold may_overwrite, io_bind, input, read.
  destruct (answers c); [reflexivity|].
  destruct (String.eqb _ _); reflexivity.
Qed.

(** X21.  [validate_create_path] returns nothing but the expanded path,
    and only with leave to write it: when the path is an existing file,
    the file is writable and the line typed at the prompt is exactly [y];
    when it is not, the directory of the path is writable and no line has
    been read. *)
Theorem validate_create_path_returns
    (colored : string -> option string -> string)
    (expanduser : string -> string) (isfile access_w : string -> bool)
    (dirname : string -> string) (keyfile p : string) (c c' : console) :
  validate_create_path colored expanduser isfile access_w dirname keyfile c
  = (Return p, c') ->
  p = expanduser keyfile
  /\ (if isfile p
      then access_w p = true /\ answers c = "y" :: answers c'
      else access_w (dirname p) = true /\ answers c' = answers c).
Proof.
  unfold validate_create_path.
  destruct (isfile (expanduser keyfile)) eqn:Hf.
  - destruct (access_w (expanduser keyfile)) eqn:Hw; [|discriminate].
    unfold io_bind. rewrite may_overwrite_eq.
    destruct (answers c) as [|a rest]; [discriminate|].
    destruct (String.eqb_spec a "y") as [->|_]; [|discriminate].
    intros [= <- <-]. rewrite Hf. repeat split; assumption || reflexivity.
  - destruct (access_w (dirname (expanduser keyfile))) eqn:Hw; [|discriminate].
    intros [= <- <-]. rewrite Hf. repeat split; assumption || reflexivity.
Qed.

Lemma validate_create_path_returns_witness :
  validate_create_path (fun text _ => text) (fun p => p)
    (fun p => String.eqb p "/keys/hot") (fun _ => true) (fun _ => "/keys")
    "/keys/hot" {| answers := ["y"; "next"]; shown := [] |}
  = (Return "/keys/hot",
     {| answers := ["next"];
        shown := [Asked "File /keys/hot already exists. Overwrite ? (y/N) "] |})
  /\ "/keys/hot" = (fun p : string => p) "/keys/hot"
  /\ ["y"; "next"] = "y" :: ["next"].
Proof.
  split; [reflexivity|].
  pose proof (@validate_create_path_returns (fun text _ => text) (fun p => p)
    (fun p => String.eqb p "/keys/hot") (fun _ => true) (fun _ => "/keys")
    "/keys/hot" "/keys/hot" {| answers := ["y"; "next"]; shown := [] |}
    {| answers := ["next"];
       shown := [Asked "File /keys/hot already exists. Overwrite ? (y/N) "] |}
    eq_refl) as [H1 H2].
  split; [exact H1 | exact (proj2 H2)].
Defined.

(** X22.  [validate_generate_mnemonic] returns a key pair exactly when the
    number of words is a multiple of three from 12 to 24 and the key
    library accepts the words joined by single spaces; it then returns the
    key pair of that text and prints nothing.  Otherwise it quits. *)
Theorem validate_generate_mnemonic_returns
    (colored : string -> option string -> string) (keypair : Type)
    (create_from_mnemonic : string -> string + keypair)
    (mnemonic : list string) (c : console) :
  match validate_generate_mnemonic colored create_from_mnemonic mnemonic c with
  | (Return kp, c') =>
      (12 <= List.length mnemonic <= 24)%nat
      /\ (List.length mnemonic mod 3 = 0)%nat
      /\ create_from_mnemonic (String.concat " " mnemonic) = inr kp
      /\ c' = c
  | (SystemExit, _) =>
      ~ ((12 <= List.length mnemonic <= 24)%nat
         /\ (List.length mnemonic mod 3 = 0)%nat)
      \/ exists e, create_from_mnemonic (String.concat " " mnemonic) = inl e
  | _ => False
  end.
Proof.
  unfold validate_generate_mnemonic.
  destruct (existsb _ _) eqn:Hlen; cbn [negb].
  - apply existsb_exists in Hlen as [n [Hin Hn]].
    apply Nat.eqb_eq in Hn. rewrite Hn.
    destruct (create_from_mnemonic (String.concat " " mnemonic)) as [e|kp] eqn:E.
    + cbn. right. exists e. reflexivity.
    + cbn. simpl in Hin.
      repeat (destruct Hin as [<-|Hin];
              [repeat split; try reflexivity; lia|]).
      contradiction.
  - cbn. left. intros [[H1 H2] H3].
    assert (Hex : existsb (Nat.eqb (List.length mnemonic))
                    [12; 15; 18; 21; 24]%nat = true).
    { remember (List.length mnemonic) as n.
      do 25 (destruct n as [|n]; [try lia; try discriminate H3; reflexivity|]).
      lia. }
    congruence.
Qed.
